(** * Authentication, rate limiting and usage accounting of the road-safety API

    A shallow embedding of [api/auth.py]: key resolution ([validate_api_key]),
    the fixed-window quota counter ([check_rate_limit]), the two route guards
    ([require_api_key], [optional_api_key]), usage logging ([log_api_usage])
    and the middleware ([RateLimitMiddleware.dispatch]).

    Conventions of the embedding.
    - The module-level dictionaries [_rate_limit_store] and [_api_keys_cache]
      are fields of the process state [World]; every function that touches
      them is written in a state-and-exception monad over [World].
    - [time.time()] reads a clock that belongs to the state: each call returns
      the next reading of [clock] and advances [ticks].  Readings are exact
      rationals; [int(x)] truncates towards zero.
    - A Python number that is either an [int] or [float('inf')] is a [Number].
    - The database is a record of tables; a table that does not exist, or a
      connection that cannot be opened, makes the statement raise, which the
      source catches with [except Exception]. *)

From Stdlib Require Import ZArith QArith Bool.
From stdpp Require Import gmap strings list pretty.

Open Scope string_scope.
Open Scope Z_scope.

(** ** Python values *)

(** An [int] or [float('inf')]. *)
Inductive Number :=
  | Int (z : Z)
  | Inf.

Module Py.

(** Truthiness of a [str]. *)
Definition truthy_str (s : string) : bool := negb (String.eqb s "").

(** Truthiness of an [Optional[str]]. *)
Definition truthy (o : option string) : bool :=
  match o with
  | Some s => truthy_str s
  | None => false
  end.

(** Truthiness of an [Optional[int]]: [None] and [0] are falsy. *)
Definition truthy_int (o : option Z) : bool :=
  match o with
  | Some z => negb (z =? 0)
  | None => false
  end.

(** [a or b] on optional strings. *)
Definition or (a b : option string) : option string :=
  if truthy a then a else b.

(** [a or b] where [b] is a string literal. *)
Definition or_str (a : option string) (b : string) : string :=
  match a with
  | Some s => if truthy_str s then s else b
  | None => b
  end.

(** [int(x)] for a float [x]: truncation towards zero. *)
Definition int (q : Q) : Z := Z.quot (Qnum q) (Z.pos (Qden q)).

(** [a < b] and [a > b] on floats. *)
Definition ltb (a b : Q) : bool := negb (Qle_bool b a).
Definition gtb (a b : Q) : bool := ltb b a.

(** [str(x)] for an [int] or [inf]. *)
Definition str (n : Number) : string :=
  match n with
  | Int z => pretty z
  | Inf => "inf"
  end.

(** [n - k] for an int [k]. *)
Definition sub (n : Number) (k : Z) : Number :=
  match n with
  | Int z => Int (z - k)
  | Inf => Inf
  end.

(** [max(0, n)]. *)
Definition max0 (n : Number) : Number :=
  match n with
  | Int z => Int (Z.max 0 z)
  | Inf => Inf
  end.

(** [k >= n] for an int [k]. *)
Definition geb (k : Z) (n : Number) : bool :=
  match n with
  | Int z => z <=? k
  | Inf => false
  end.

End Py.

(** ** Configuration *)

Definition API_KEY_NAME : string := "X-API-Key".
Definition RATE_LIMIT_WINDOW : Q := 3600.
Definition _cache_ttl : Q := 300.

Definition RATE_LIMITS : gmap string Number :=
  <["free" := Int 100]>
  (<["developer" := Int 5000]>
  (<["professional" := Int 25000]>
  (<["unlimited" := Inf]> ∅))).

(** [RATE_LIMITS["free"]]. *)
Definition RATE_LIMITS_free : Number := Int 100.

(** The dictionaries returned by key resolution and by the guards.  [active]
    and [user_id] are absent from some of them. *)
Record key_info := mk_key_info {
  key : string;
  tier : string;
  name : string;
  active : option bool;
  user_id : option Z
}.

Record demo_entry := mk_demo {
  demo_tier : string;
  demo_name : string;
  demo_active : bool
}.

Definition DEMO_API_KEYS : gmap string demo_entry :=
  <["demo-key-free" := mk_demo "free" "Demo Free" true]>
  (<["demo-key-dev" := mk_demo "developer" "Demo Developer" true]>
  (<["demo-key-pro" := mk_demo "professional" "Demo Professional" true]>
  (<["admin-key-unlimited" := mk_demo "unlimited" "Admin" true]> ∅))).

(** ** The database *)

(** A row of [users], in the column order of the first SELECT. *)
Record users_row := mk_user {
  u_api_key : string;
  u_tier : string;
  u_name : string;
  u_is_active : bool;
  u_id : Z
}.

(** A row of [api_keys], in the column order of the second SELECT. *)
Record api_keys_row := mk_api_key {
  k_api_key : string;
  k_tier : string;
  k_name : string;
  k_active : bool
}.

(** A row of [api_usage], as inserted by [log_api_usage]. *)
Record usage_row := mk_usage {
  l_api_key : string;
  l_endpoint : string;
  l_method : string;
  l_status_code : Z;
  l_response_time_ms : Z;
  l_ip_address : string;
  l_user_id : option Z
}.

(** [reachable = false]: opening a connection raises.  A table that is [None]
    does not exist: a statement over it raises. *)
Record Database := mk_db {
  reachable : bool;
  users : option (list users_row);
  api_keys : option (list api_keys_row);
  api_usage : option (list usage_row)
}.

(** ** Per-request state and process state *)

(** One quota window, the value type of [_rate_limit_store]. *)
Record Window := mk_window {
  count : Z;
  reset_at : Q
}.

(** [defaultdict(lambda: {"count": 0, "reset_at": 0})]. *)
Definition default_window : Window := mk_window 0 0.

(** The attributes the guards set on [request.state]; [None] is an attribute
    that has not been set. *)
Record State := mk_state {
  st_api_key : option string;
  st_tier : option string;
  st_user_id : option (option Z);
  st_is_dashboard : option bool;
  st_rate_limit_remaining : option Number;
  st_rate_limit_reset : option Z;
  st_rate_limit_limit : option Number
}.

Definition empty_state : State :=
  mk_state None None None None None None None.

Record World := mk_world {
  _rate_limit_store : gmap string Window;
  _api_keys_cache : gmap string (key_info * Q);
  database : Database;
  (** successive readings of [time.time()] and how many were taken *)
  clock : nat -> Q;
  ticks : nat;
  (** [datetime.fromtimestamp(t).isoformat()] in the local time zone *)
  isoformat : Z -> string;
  (** [request.state] of the request being served *)
  state : State
}.

Definition with_store (f : gmap string Window -> gmap string Window) (w : World) : World :=
  mk_world (f (_rate_limit_store w)) (_api_keys_cache w) (database w)
           (clock w) (ticks w) (isoformat w) (state w).

Definition with_cache (f : gmap string (key_info * Q) -> gmap string (key_info * Q))
    (w : World) : World :=
  mk_world (_rate_limit_store w) (f (_api_keys_cache w)) (database w)
           (clock w) (ticks w) (isoformat w) (state w).

Definition with_database (f : Database -> Database) (w : World) : World :=
  mk_world (_rate_limit_store w) (_api_keys_cache w) (f (database w))
           (clock w) (ticks w) (isoformat w) (state w).

Definition with_ticks (f : nat -> nat) (w : World) : World :=
  mk_world (_rate_limit_store w) (_api_keys_cache w) (database w)
           (clock w) (f (ticks w)) (isoformat w) (state w).

Definition with_state (f : State -> State) (w : World) : World :=
  mk_world (_rate_limit_store w) (_api_keys_cache w) (database w)
           (clock w) (ticks w) (isoformat w) (f (state w)).

(** ** The monad: state over [World], with exceptions *)

Record HTTPException := mk_exc {
  status_code : Z;
  detail : string;
  exc_headers : list (string * string)
}.

(** What a function can raise: an [HTTPException], or any other Python
    exception ([AttributeError], ...), kept by its class name. *)
Inductive Exception :=
  | HTTP (e : HTTPException)
  | Other (cls : string).

Inductive Result (A : Type) :=
  | Return (a : A)
  | Raise (e : Exception).
Arguments Return {A} a.
Arguments Raise {A} e.

Definition M (A : Type) : Type := World -> Result A * World.

Definition ret {A} (a : A) : M A := fun w => (Return a, w).

Definition raise {A} (e : Exception) : M A := fun w => (Raise e, w).

Definition bind {A B} (m : M A) (k : A -> M B) : M B :=
  fun w =>
    match m w with
    | (Return a, w') => k a w'
    | (Raise e, w') => (Raise e, w')
    end.

Definition get : M World := fun w => (Return w, w).

Definition modify (f : World -> World) : M unit := fun w => (Return tt, f w).

Declare Scope py_scope.
Delimit Scope py_scope with py.
Notation "x <~ m ;; k" := (bind m (fun x => k))
  (at level 100, m at next level, right associativity) : py_scope.
Notation "m ;;; k" := (bind m (fun _ => k))
  (at level 100, right associativity) : py_scope.
Open Scope py_scope.

(** [time.time()]. *)
Definition time_time : M Q :=
  fun w => (Return (clock w (ticks w)), with_ticks S w).

(** The reading the next [time.time()] returns. *)
Definition next_reading (w : World) : Q := clock w (ticks w).

(** ** [check_rate_limit] *)

(** [RATE_LIMITS.get(tier, RATE_LIMITS["free"])]. *)
Definition limit_of (tier : string) : Number :=
  default RATE_LIMITS_free (RATE_LIMITS !! tier).

(** [_rate_limit_store[k]] on the [defaultdict]: a missing key is created with
    the default window. *)
Definition store_getitem (k : string) : M Window :=
  fun w =>
    match _rate_limit_store w !! k with
    | Some win => (Return win, w)
    | None => (Return default_window, with_store (insert k default_window) w)
    end.

(** A write through the reference [store] to the window under [k]. *)
Definition store_set (k : string) (win : Window) : M unit :=
  modify (with_store (insert k win)).

Definition check_rate_limit (rate_limit_key tier : string) : M (bool * Number * Z) :=
  now <~ time_time ;;
  store <~ store_getitem rate_limit_key ;;
  (* Reset if window expired *)
  store <~ (if Py.gtb now (reset_at store)
            then (let store' := mk_window 0 (now + RATE_LIMIT_WINDOW) in
                  store_set rate_limit_key store' ;;; ret store')
            else ret store) ;;
  let limit := limit_of tier in
  let remaining := Py.max0 (Py.sub limit (count store)) in
  if Py.geb (count store) limit
  then ret (false, Int 0, Py.int (reset_at store))
  else
    store_set rate_limit_key (mk_window (count store + 1) (reset_at store)) ;;;
    ret (true, Py.sub remaining 1, Py.int (reset_at store)).

(** ** Requests and responses *)

(** Header names are looked up the way the source spells them. *)
Record Request := mk_request {
  url_path : string;
  method : string;
  headers : gmap string string;
  query_params : gmap string string;
  (** [request.client.host], [None] when [request.client] is [None] *)
  client : option string
}.

Record Response := mk_response {
  resp_status : Z;
  resp_headers : gmap string string;
  resp_body : string
}.

(** ** [validate_api_key] *)

Inductive Outcome (A : Type) :=
  | Raises
  | Gives (a : A).
Arguments Raises {A}.
Arguments Gives {A} a.

(** [SELECT ... FROM users WHERE api_key = :key AND is_active = true],
    then [fetchone()]. *)
Definition select_users (k : string) (db : Database) : Outcome (option users_row) :=
  match users db with
  | None => Raises
  | Some rows =>
      Gives (List.find (fun r => String.eqb (u_api_key r) k && u_is_active r) rows)
  end.

(** [SELECT ... FROM api_keys WHERE api_key = :key AND active = true],
    then [fetchone()]. *)
Definition select_api_keys (k : string) (db : Database) : Outcome (option api_keys_row) :=
  match api_keys db with
  | None => Raises
  | Some rows =>
      Gives (List.find (fun r => String.eqb (k_api_key r) k && k_active r) rows)
  end.

Definition cache_set (cache_key : string) (info : key_info) : M unit :=
  now <~ time_time ;;
  modify (with_cache (insert cache_key (info, now))).

(** The [try] block of [validate_api_key] with its [except Exception: pass],
    and the [return None] that follows it. *)
Definition database_lookup (api_key cache_key : string) : M (option key_info) :=
  w <~ get ;;
  let db := database w in
  if negb (reachable db) then ret None
  else
    match select_users api_key db with
    | Raises => ret None
    | Gives (Some row) =>
        let info := mk_key_info (u_api_key row) (u_tier row) (u_name row)
                                (Some (u_is_active row)) (Some (u_id row)) in
        cache_set cache_key info ;;;
        ret (Some info)
    | Gives None =>
        match select_api_keys api_key db with
        | Raises => ret None
        | Gives (Some row) =>
            let info := mk_key_info (k_api_key row) (k_tier row) (k_name row)
                                    (Some (k_active row)) None in
            cache_set cache_key info ;;;
            ret (Some info)
        | Gives None => ret None
        end
    end.

Definition validate_api_key (api_key : string) : M (option key_info) :=
  if negb (Py.truthy_str api_key) then ret None
  else
    (* Check demo keys first *)
    match DEMO_API_KEYS !! api_key with
    | Some d =>
        if demo_active d
        then ret (Some (mk_key_info api_key (demo_tier d) (demo_name d)
                                    (Some (demo_active d)) None))
        else ret None
    | None =>
        (* Check cache *)
        let cache_key := "apikey_" +:+ api_key in
        w <~ get ;;
        hit <~ match _api_keys_cache w !! cache_key with
               | Some (cached, cached_at) =>
                   now <~ time_time ;;
                   if Py.ltb (now - cached_at) _cache_ttl
                   then ret (Some cached) else ret None
               | None => ret None
               end ;;
        match hit with
        | Some cached => ret (Some cached)
        | None => database_lookup api_key cache_key
        end
    end.

(** ** [log_api_usage] *)

Definition insert_usage (row : usage_row) (db : Database) : Database :=
  match api_usage db with
  | Some rows => mk_db (reachable db) (users db) (api_keys db) (Some (rows ++ [row])%list)
  | None => db
  end.

(** The body is one [try] whose [except] passes: an unreachable database or a
    missing table leaves everything as it was. *)
Definition log_api_usage (api_key : option string) (endpoint method : string)
    (status : Z) (response_time_ms : Z) (ip_address : string)
    (uid : option Z) : M unit :=
  modify (fun w =>
    if reachable (database w)
    then with_database
           (insert_usage (mk_usage (Py.or_str api_key "anonymous")
                                   endpoint method status response_time_ms
                                   ip_address uid)) w
    else w).

(** ** The route guards *)

Definition get_api_key (api_key_header api_key_query : option string) : option string :=
  Py.or api_key_header api_key_query.

Definition public_paths : list string :=
  ["/health"; "/"; "/docs"; "/redoc"; "/openapi.json"].

(** [request.headers.get("X-Dashboard") == "true"]. *)
Definition is_dashboard_request (request : Request) : bool :=
  bool_decide (headers request !! "X-Dashboard" = Some "true").

(** [f"user_{key_info.get('user_id')}" if key_info.get('user_id') else api_key]. *)
Definition rate_limit_key_of (info : key_info) (api_key : string) : string :=
  if Py.truthy_int (user_id info)
  then "user_" +:+ pretty (default 0 (user_id info))
  else api_key.

(** [RATE_LIMITS.get(tier, 100)]. *)
Definition limit_or_100 (tier : string) : Number :=
  default (Int 100) (RATE_LIMITS !! tier).

Definition set_rate_limit_state (remaining : Number) (reset : Z) (limit : Number) : M unit :=
  modify (with_state (fun s =>
    mk_state (st_api_key s) (st_tier s) (st_user_id s) (st_is_dashboard s)
             (Some remaining) (Some reset) (Some limit))).

Definition require_api_key (request : Request) (api_key : option string) : M key_info :=
  (* Allow health endpoints without auth *)
  if bool_decide (url_path request ∈ public_paths)
  then ret (mk_key_info "public" "free" "Public" None None)
  else
    match api_key with
    | Some k =>
      if negb (Py.truthy_str k)
      then raise (HTTP (mk_exc 401
             "API key required. Include 'X-API-Key' header or 'api_key' query parameter."
             [("WWW-Authenticate", "API key required")]))
      else
        key_info <~ validate_api_key k ;;
        match key_info with
        | None =>
            raise (HTTP (mk_exc 401 "Invalid API key"
                           [("WWW-Authenticate", "API key invalid")]))
        | Some key_info =>
            let is_dashboard := is_dashboard_request request in
            (* Store user info in request state *)
            modify (with_state (fun s =>
              mk_state (Some k) (Some (tier key_info)) (Some (user_id key_info))
                       (Some is_dashboard) (st_rate_limit_remaining s)
                       (st_rate_limit_reset s) (st_rate_limit_limit s))) ;;;
            if is_dashboard
            then
              let limit := limit_or_100 (tier key_info) in
              now <~ time_time ;;
              set_rate_limit_state
                (match limit with Int z => Int z | Inf => Int 999999 end)
                (Py.int (now + 3600)) limit ;;;
              ret key_info
            else
              (* External API requests: apply rate limiting *)
              let rate_limit_key := rate_limit_key_of key_info k in
              r <~ check_rate_limit rate_limit_key (tier key_info) ;;
              let '(allowed, remaining, reset) := r in
              let limit := limit_or_100 (tier key_info) in
              set_rate_limit_state remaining reset limit ;;;
              if negb allowed
              then
                w <~ get ;;
                now <~ time_time ;;
                raise (HTTP (mk_exc 429
                  ("Rate limit exceeded. Resets at " +:+ isoformat w reset)
                  [("X-RateLimit-Limit", Py.str limit);
                   ("X-RateLimit-Remaining", "0");
                   ("X-RateLimit-Reset", pretty reset);
                   ("Retry-After", pretty (Py.int (inject_Z reset - now)))]))
              else ret key_info
        end
    | None =>
        raise (HTTP (mk_exc 401
          "API key required. Include 'X-API-Key' header or 'api_key' query parameter."
          [("WWW-Authenticate", "API key required")]))
    end.

(** Lines 284-301 of [optional_api_key]: the anonymous caller. *)
Definition anonymous_rate_limit (request : Request) : M key_info :=
  let client_ip := default "unknown" (client request) in
  let anonymous_key := "anon_" +:+ client_ip in
  r <~ check_rate_limit anonymous_key "free" ;;
  let '(allowed, remaining, reset) := r in
  modify (with_state (fun s =>
    mk_state (Some anonymous_key) (Some "free") (st_user_id s) (st_is_dashboard s)
             (Some remaining) (Some reset) (Some RATE_LIMITS_free))) ;;;
  if negb allowed
  then raise (HTTP (mk_exc 429
         "Rate limit exceeded. Get an API key for higher limits." []))
  else ret (mk_key_info anonymous_key "free" "Anonymous" None None).

Definition optional_api_key (request : Request) (api_key : option string) : M key_info :=
  match api_key with
  | Some k =>
    if Py.truthy_str k
    then
      key_info <~ validate_api_key k ;;
      match key_info with
      | Some key_info =>
          (* Use user_id for rate limiting (persists across key regeneration) *)
          let rate_limit_key := rate_limit_key_of key_info k in
          r <~ check_rate_limit rate_limit_key (tier key_info) ;;
          let '(allowed, remaining, reset) := r in
          modify (with_state (fun s =>
            mk_state (Some k) (Some (tier key_info)) (st_user_id s) (st_is_dashboard s)
                     (Some remaining) (Some reset)
                     (Some (limit_or_100 (tier key_info))))) ;;;
          if negb allowed
          then raise (HTTP (mk_exc 429 "Rate limit exceeded" []))
          else ret key_info
      | None => anonymous_rate_limit request
      end
    else anonymous_rate_limit request
  | None => anonymous_rate_limit request
  end.

(** ** [RateLimitMiddleware.dispatch] *)

Definition add_rate_limit_headers (s : State) (response : Response) : M Response :=
  match st_rate_limit_remaining s with
  | Some remaining =>
      match st_rate_limit_limit s, st_rate_limit_reset s with
      | Some limit, Some reset =>
          ret (mk_response (resp_status response)
                 (<["X-RateLimit-Reset" := pretty reset]>
                  (<["X-RateLimit-Remaining" := Py.str remaining]>
                   (<["X-RateLimit-Limit" := Py.str limit]>
                    (resp_headers response))))
                 (resp_body response))
      | _, _ => raise (Other "AttributeError")
      end
  | None => ret response
  end.

Definition dispatch (request : Request) (call_next : Request -> M Response) : M Response :=
  start_time <~ time_time ;;
  (* Extract API key from header or query parameter *)
  let api_key := Py.or (headers request !! "X-API-Key")
                       (query_params request !! "api_key") in
  (* Check if this is a dashboard request (should not count against usage) *)
  let is_dashboard := is_dashboard_request request in
  response <~ call_next request ;;
  now <~ time_time ;;
  let response_time := Py.int ((now - start_time) * 1000) in
  (* Add rate limit headers if available *)
  w <~ get ;;
  response <~ add_rate_limit_headers (state w) response ;;
  (* Log API usage only for external API calls (not dashboard) *)
  (if Py.truthy api_key && negb is_dashboard
   then log_api_usage api_key (url_path request) (method request)
          (resp_status response) response_time
          (default "unknown" (client request))
          (default None (st_user_id (state w)))
   else ret tt) ;;;
  ret response.

(** ** A guarded route, as the framework runs it

    The framework resolves the guard (a dependency) with the credential from
    [get_api_key], then runs the endpoint; an [HTTPException] raised by either
    becomes a response with the exception's status code, detail and headers.
    Any other exception is not handled here. *)

Definition http_exception_handler (e : HTTPException) : Response :=
  mk_response (status_code e) (list_to_map (exc_headers e)) (detail e).

Definition handle_http (m : M Response) : M Response :=
  fun w =>
    match m w with
    | (Raise (HTTP e), w') => (Return (http_exception_handler e), w')
    | r => r
    end.

Definition route (guard : Request -> option string -> M key_info)
    (endpoint : Request -> M Response) (request : Request) : M Response :=
  handle_http
    (guard request (get_api_key (headers request !! "X-API-Key")
                                (query_params request !! "api_key")) ;;;
     endpoint request).

(** A new request arrives: its [request.state] has no attribute yet. *)
Definition new_request (w : World) : World := with_state (fun _ => empty_state) w.

(** ** [get_rate_limit_status] of [routers/usage.py]

    The endpoint behind [GET /api/v1/usage/rate-limit], on a router guarded by
    [require_api_key]: it reads what the guard left on [request.state]. *)

(** The response model; [reset_at] is the instant
    [datetime.fromtimestamp(reset_at)], kept as its timestamp. *)
Record RateLimitInfo := mk_rate_limit_info {
  rl_tier : string;
  rl_limit : Z;
  rl_remaining : Z;
  rl_reset_at : Z;
  rl_reset_in_seconds : Z
}.

(** [int(limit) if limit != float('inf') else 999999]. *)
Definition displayed_limit (limit : Number) : Z :=
  match limit with
  | Int z => z
  | Inf => 999999
  end.

(** The model validates its fields when it is built: [remaining] is declared
    [int], and [float('inf')] is not accepted for it. *)
Definition get_rate_limit_status : M RateLimitInfo :=
  w <~ get ;;
  let tier := default "free" (st_tier (state w)) in
  let limit := limit_or_100 tier in
  let remaining := default limit (st_rate_limit_remaining (state w)) in
  reset <~ match st_rate_limit_reset (state w) with
           | Some r => ret r
           | None => now <~ time_time ;; ret (Py.int (now + 3600))
           end ;;
  now <~ time_time ;;
  match remaining with
  | Int r =>
      ret (mk_rate_limit_info tier (displayed_limit limit) r reset
                              (Z.max 0 (reset - Py.int now)))
  | Inf => raise (Other "ValidationError")
  end.

(** * Vocabulary of the properties

    Functions and predicates the statements below are written with, and the
    concrete worlds and requests they are tried on. *)

(** The window [check_rate_limit] finds under [k]: the stored one, or the
    default the [defaultdict] creates. *)
Definition window_at (k : string) (w : World) : Window :=
  default default_window (_rate_limit_store w !! k).

(** The window after the expiry test at reading [now]. *)
Definition current_window (now : Q) (win : Window) : Window :=
  if Py.gtb now (reset_at win) then mk_window 0 (now + RATE_LIMIT_WINDOW) else win.

(** The window one call leaves behind, and what the call returns. *)
Definition window_after (now : Q) (tier : string) (win : Window) : Window :=
  let cur := current_window now win in
  if Py.geb (count cur) (limit_of tier) then cur
  else mk_window (count cur + 1) (reset_at cur).

Definition verdict (now : Q) (tier : string) (win : Window) : bool * Number * Z :=
  let cur := current_window now win in
  if Py.geb (count cur) (limit_of tier)
  then (false, Int 0, Py.int (reset_at cur))
  else (true, Py.sub (Py.max0 (Py.sub (limit_of tier) (count cur))) 1,
        Py.int (reset_at cur)).

(** [n] calls in a row for the same key and tier. *)
Fixpoint repeat_check (n : nat) (k tier : string) : M (list (bool * Number * Z)) :=
  match n with
  | O => ret []
  | S n' =>
      r <~ check_rate_limit k tier ;;
      rs <~ repeat_check n' k tier ;;
      ret (r :: rs)
  end.

(** What [n] accepted calls in a row return, from a count of [c] under a
    ceiling of [L]. *)
Fixpoint accepted_run (L : Z) (n : nat) (c : Z) (r : Q) : list (bool * Number * Z) :=
  match n with
  | O => []
  | S n' => (true, Int (L - c - 1), Py.int r) :: accepted_run L n' (c + 1) r
  end.

(** The cache test of [validate_api_key], at the reading the next
    [time.time()] returns: is there an entry younger than the TTL? *)
Definition freshly_cached (api_key : string) (w : World) : bool :=
  match _api_keys_cache w !! ("apikey_" +:+ api_key) with
  | Some (_, cached_at) => Py.ltb (next_reading w - cached_at) _cache_ttl
  | None => false
  end.

(** Does a statement of the [try] block raise?  Opening the connection, the
    SELECT over [users], or, when that one gives no row, the SELECT over
    [api_keys]. *)
Definition lookup_raises (api_key : string) (db : Database) : bool :=
  negb (reachable db) ||
  match select_users api_key db with
  | Raises => true
  | Gives (Some _) => false
  | Gives None =>
      match select_api_keys api_key db with
      | Raises => true
      | Gives _ => false
      end
  end.

(** What the database lookup finds, as a function of the database. *)
Definition fetched (api_key : string) (db : Database) : option key_info :=
  if negb (reachable db) then None
  else
    match select_users api_key db with
    | Raises => None
    | Gives (Some row) =>
        Some (mk_key_info (u_api_key row) (u_tier row) (u_name row)
                          (Some (u_is_active row)) (Some (u_id row)))
    | Gives None =>
        match select_api_keys api_key db with
        | Gives (Some row) =>
            Some (mk_key_info (k_api_key row) (k_tier row) (k_name row)
                              (Some (k_active row)) None)
        | _ => None
        end
    end.

(** A world whose cache holds, since reading 0, the record user 7 had on the
    free tier; the database now has that user on the developer tier. *)
Definition stale_world : World :=
  mk_world ∅
    (<["apikey_rsk_a" :=
         (mk_key_info "rsk_a" "free" "Ann" (Some true) (Some 7), 0%Q)]> ∅)
    (mk_db true (Some [mk_user "rsk_a" "developer" "Ann" true 7]) None None)
    (fun _ => 300%Q) 0 (fun _ => "") empty_state.

(** The two guards. *)
Inductive Guard :=
  | Required
  | Optional.

Definition run_guard (g : Guard) : Request -> option string -> M key_info :=
  match g with
  | Required => require_api_key
  | Optional => optional_api_key
  end.

(** What a guard that enforces quota under [k] on tier [t] leaves behind when
    it starts the quota check in world [w1], and what it answers: the window
    under [k] is the one [check_rate_limit] leaves, the three rate-limit
    attributes of [request.state] are set, and the answer is [info] when the
    call is allowed and a 429 when it is not. *)
Definition enforced (k t : string) (info : key_info) (w1 : World)
    (res : Result key_info) (w' : World) : Prop :=
  let now := next_reading w1 in
  let v := verdict now t (window_at k w1) in
  let win := window_after now t (window_at k w1) in
  _rate_limit_store w' = <[k := win]> (_rate_limit_store w1) /\
  st_rate_limit_remaining (state w') = Some (snd (fst v)) /\
  st_rate_limit_reset (state w') = Some (Py.int (reset_at win)) /\
  is_Some (st_rate_limit_limit (state w')) /\
  database w' = database w1 /\
  if fst (fst v)
  then res = Return info
  else exists e, res = Raise (HTTP e) /\ status_code e = 429.

(** The identity the guards give an anonymous caller. *)
Definition anonymous_key (request : Request) : string :=
  "anon_" +:+ default "unknown" (client request).

Definition anonymous_info (request : Request) : key_info :=
  mk_key_info (anonymous_key request) "free" "Anonymous" None None.

Definition no_database : Database := mk_db true None None None.

(** A process that has served nothing yet; every clock reading is 10. *)
Definition idle_world (db : Database) : World :=
  mk_world ∅ ∅ db (fun _ => 10%Q) 0 (fun _ => "") empty_state.

(** The same, with the window of [k] used up to [c] and open until 3600. *)
Definition spent_world (k : string) (c : Z) (db : Database) : World :=
  mk_world (<[k := mk_window c 3600]> ∅) ∅ db (fun _ => 10%Q) 0 (fun _ => "")
           empty_state.

Definition get_request (path : string) (hs : list (string * string)) : Request :=
  mk_request path "GET" (list_to_map hs) ∅ (Some "10.0.0.1").

Definition dashboard_request : Request :=
  get_request "/api/v1/accidents"
    [("X-API-Key", "demo-key-free"); ("X-Dashboard", "true")].

Definition zero_database : Database :=
  mk_db true (Some [mk_user "rsk_a" "free" "Zed" true 0]) (Some []) (Some []).

Definition external_request (k : string) : Request :=
  get_request "/api/v1/accidents" [("X-API-Key", k)].

(** The same database after user 0 regenerated the key. *)
Definition zero_database_rotated : Database :=
  mk_db true (Some [mk_user "rsk_b" "free" "Zed" true 0]) (Some []) (Some []).

Definition seven_database : Database :=
  mk_db true (Some [mk_user "rsk_a" "free" "Ann" true 7]) (Some []) (Some []).

(** [hasattr(request.state, "rate_limit_remaining")] implies that the two
    attributes read next are set as well. *)
Definition headers_ready (s : State) : bool :=
  match st_rate_limit_remaining s with
  | Some _ =>
      match st_rate_limit_limit s, st_rate_limit_reset s with
      | Some _, Some _ => true
      | _, _ => false
      end
  | None => true
  end.

(** The response with the three rate-limit headers, when the attributes are
    there. *)
Definition with_rate_limit_headers (s : State) (response : Response) : Response :=
  match st_rate_limit_remaining s, st_rate_limit_limit s, st_rate_limit_reset s with
  | Some remaining, Some limit, Some reset =>
      mk_response (resp_status response)
        (<["X-RateLimit-Reset" := pretty reset]>
         (<["X-RateLimit-Remaining" := Py.str remaining]>
          (<["X-RateLimit-Limit" := Py.str limit]> (resp_headers response))))
        (resp_body response)
  | _, _, _ => response
  end.

(** The credential the middleware extracts, and its test for logging. *)
Definition credential (request : Request) : option string :=
  Py.or (headers request !! "X-API-Key") (query_params request !! "api_key").

Definition recorded (request : Request) : bool :=
  Py.truthy (credential request) && negb (is_dashboard_request request).

Definition ok_endpoint : Request -> M Response :=
  fun _ => ret (mk_response 200 ∅ "ok").

Definition empty_tables : Database := mk_db true (Some []) (Some []) (Some []).

(** Every cache entry sits under the cache key of the credential it
    describes, and describes an active record. *)
Definition cache_sound (w : World) : Prop :=
  forall (ck : string) (info : key_info) (t : Q),
    _api_keys_cache w !! ck = Some (info, t) ->
    ck = "apikey_" +:+ key info /\ active info = Some true.

(** The three headers the middleware writes. *)
Definition rate_limit_header_names : list string :=
  ["X-RateLimit-Limit"; "X-RateLimit-Remaining"; "X-RateLimit-Reset"].

(** The cached record of user 7; the database no longer has the key. *)
Definition revoked_world : World :=
  mk_world ∅
    (<["apikey_rsk_a" :=
         (mk_key_info "rsk_a" "free" "Ann" (Some true) (Some 7), 0%Q)]> ∅)
    (mk_db true (Some []) (Some []) (Some []))
    (fun _ => 299%Q) 0 (fun _ => "") empty_state.

(** Readings of a clock that stands at 3600 for the first hundred calls and
    at 3601 from then on. *)
Definition boundary_world : World :=
  mk_world (<["demo-key-free" := mk_window 0 3600]> ∅) ∅ no_database
           (fun i => if (i <? 100)%nat then 3600%Q else 3601%Q) 0 (fun _ => "")
           empty_state.

(** * Properties *)

(** ** The code on small inputs *)

Example RATE_LIMITS_free_entry : RATE_LIMITS !! "free" = Some RATE_LIMITS_free.
Proof. reflexivity. Qed.

Example limit_of_unknown_tier : limit_of "gold" = Int 100.
Proof. reflexivity. Qed.

Example first_call_free :
  fst (check_rate_limit "demo-key-free" "free" (idle_world no_database))
  = Return (true, Int 99, 3610).
Proof. vm_compute. reflexivity. Qed.

Example first_call_unlimited :
  fst (check_rate_limit "admin-key-unlimited" "unlimited" (idle_world no_database))
  = Return (true, Inf, 3610).
Proof. vm_compute. reflexivity. Qed.

Example bogus_key_rejected :
  fst (require_api_key (external_request "bogus") (Some "bogus")
         (idle_world empty_tables))
  = Raise (HTTP (mk_exc 401 "Invalid API key"
                        [("WWW-Authenticate", "API key invalid")])).
Proof. vm_compute. reflexivity. Qed.

Example missing_key_rejected :
  status_code <$> (match fst (require_api_key (get_request "/api/v1/accidents" [])
                                None (idle_world empty_tables))
                   with Raise (HTTP e) => Some e | _ => None end)
  = Some 401.
Proof. vm_compute. reflexivity. Qed.

Example header_wins_over_query :
  get_api_key (Some "from-header") (Some "from-query") = Some "from-header" /\
  get_api_key None (Some "from-query") = Some "from-query" /\
  get_api_key (Some "") (Some "from-query") = Some "from-query".
Proof. repeat split. Qed.

(** ** The quota window *)

Lemma world_eq (w1 w2 : World) :
  _rate_limit_store w1 = _rate_limit_store w2 ->
  _api_keys_cache w1 = _api_keys_cache w2 ->
  database w1 = database w2 ->
  clock w1 = clock w2 ->
  ticks w1 = ticks w2 ->
  isoformat w1 = isoformat w2 ->
  state w1 = state w2 ->
  w1 = w2.
Proof.
  destruct w1, w2; simpl; intros; subst; reflexivity.
Qed.

(** One call, as a function of the window it finds and of the clock. *)
Lemma check_rate_limit_unfold (k tier : string) (w : World) :
  check_rate_limit k tier w =
    (Return (verdict (next_reading w) tier (window_at k w)),
     with_ticks S
       (with_store (insert k (window_after (next_reading w) tier (window_at k w))) w)).
Proof.
  unfold check_rate_limit, verdict, window_after, current_window, window_at,
    next_reading, bind, time_time, store_getitem, store_set, modify, ret.
  cbn [_rate_limit_store with_ticks with_store].
  set (now := clock w (ticks w)).
  destruct (_rate_limit_store w !! k) as [win|] eqn:Hk; unfold default, id.
  - destruct (Py.gtb now (reset_at win)) eqn:Hexp;
      cbn [count reset_at _rate_limit_store with_store with_ticks];
      destruct (Py.geb _ (limit_of tier)) eqn:Hfull;
      f_equal; apply world_eq; cbn; try reflexivity;
      rewrite ?insert_insert_eq; try reflexivity.
    symmetry. apply insert_id. exact Hk.
  - destruct (Py.gtb now (reset_at default_window)) eqn:Hexp;
      cbn [count reset_at _rate_limit_store with_store with_ticks];
      destruct (Py.geb _ (limit_of tier)) eqn:Hfull;
      f_equal; apply world_eq; cbn; try reflexivity;
      rewrite ?insert_insert_eq; reflexivity.
Qed.

Lemma gtb_true_iff (a b : Q) : Py.gtb a b = true <-> (b < a)%Q.
Proof.
  unfold Py.gtb, Py.ltb. rewrite negb_true_iff.
  split; intros H.
  - apply Qnot_le_lt. intros Hle. apply Qle_bool_iff in Hle. congruence.
  - destruct (Qle_bool a b) eqn:E; [|reflexivity].
    apply Qle_bool_iff in E. exfalso. exact (Qlt_not_le _ _ H E).
Qed.

Lemma gtb_false_iff (a b : Q) : Py.gtb a b = false <-> (a <= b)%Q.
Proof.
  unfold Py.gtb, Py.ltb. rewrite negb_false_iff. apply Qle_bool_iff.
Qed.

(** Every tier, known or not, has a ceiling above zero. *)
Lemma limit_of_cases (t : string) :
  limit_of t = Int 100 \/ limit_of t = Int 5000 \/
  limit_of t = Int 25000 \/ limit_of t = Inf.
Proof.
  unfold limit_of, RATE_LIMITS.
  repeat (rewrite lookup_insert; case_decide; [cbn; tauto|]).
  rewrite lookup_empty. cbn. tauto.
Qed.

Lemma limit_of_not_reached_at_0 (t : string) : Py.geb 0 (limit_of t) = false.
Proof.
  destruct (limit_of_cases t) as [H|[H|[H|H]]]; rewrite H; reflexivity.
Qed.

Lemma finite_limit_positive (t : string) (L : Z) : limit_of t = Int L -> 100 <= L.
Proof.
  destruct (limit_of_cases t) as [H|[H|[H|H]]]; rewrite H; intros [= <-]; lia.
Qed.

Section Window.

Variables (k tier : string) (L : Z).
Hypothesis finite : limit_of tier = Int L.

(** A call that finds the window open and not used up is accepted. *)
Lemma check_accepts (w : World) (c : Z) (r : Q) :
  _rate_limit_store w !! k = Some (mk_window c r) ->
  (next_reading w <= r)%Q ->
  c < L ->
  check_rate_limit k tier w =
    (Return (true, Int (L - c - 1), Py.int r),
     with_ticks S (with_store (insert k (mk_window (c + 1) r)) w)).
Proof.
  intros Hk Hin Hc. rewrite check_rate_limit_unfold.
  unfold verdict, window_after, current_window, window_at.
  rewrite Hk. cbn [default id reset_at].
  apply gtb_false_iff in Hin. rewrite Hin. cbn [count reset_at].
  rewrite finite. cbn [Py.geb Py.sub Py.max0].
  destruct (Z.leb_spec L c); [lia|].
  rewrite Z.max_r by lia. reflexivity.
Qed.

(** A call that finds the window open and used up is denied, and leaves the
    store as it was. *)
Lemma check_denies (w : World) (c : Z) (r : Q) :
  _rate_limit_store w !! k = Some (mk_window c r) ->
  (next_reading w <= r)%Q ->
  L <= c ->
  check_rate_limit k tier w = (Return (false, Int 0, Py.int r), with_ticks S w).
Proof.
  intros Hk Hin Hc. rewrite check_rate_limit_unfold.
  unfold verdict, window_after, current_window, window_at.
  rewrite Hk. cbn [default id reset_at].
  apply gtb_false_iff in Hin. rewrite Hin. cbn [count reset_at].
  rewrite finite. cbn [Py.geb].
  destruct (Z.leb_spec L c); [|lia].
  f_equal. f_equal. apply world_eq; cbn; try reflexivity.
  apply insert_id. exact Hk.
Qed.

(** A call that finds the window expired opens a new one and is accepted. *)
Lemma check_reopens (w : World) :
  (reset_at (window_at k w) < next_reading w)%Q ->
  check_rate_limit k tier w =
    (Return (true, Int (L - 1), Py.int (next_reading w + RATE_LIMIT_WINDOW)),
     with_ticks S
       (with_store (insert k (mk_window 1 (next_reading w + RATE_LIMIT_WINDOW))) w)).
Proof.
  intros Hexp. rewrite check_rate_limit_unfold.
  unfold verdict, window_after, current_window.
  apply gtb_true_iff in Hexp. rewrite Hexp. cbn [count reset_at].
  rewrite limit_of_not_reached_at_0, finite. cbn [Py.sub Py.max0].
  pose proof (finite_limit_positive _ _ finite).
  rewrite Z.max_r by lia. rewrite Z.sub_0_r. reflexivity.
Qed.

Lemma accepted_run_lookup (n : nat) : forall (c : Z) (r : Q) (i : nat),
  (i < n)%nat ->
  accepted_run L n c r !! i = Some (true, Int (L - c - 1 - Z.of_nat i), Py.int r).
Proof.
  induction n as [|n IH]; intros c r i Hi; [lia|].
  destruct i as [|i]; cbn [accepted_run]; rewrite lookup_cons.
  - replace (L - c - 1 - Z.of_nat 0) with (L - c - 1) by lia. reflexivity.
  - rewrite IH by lia.
    replace (L - (c + 1) - 1 - Z.of_nat i) with (L - c - 1 - Z.of_nat (S i)) by lia.
    reflexivity.
Qed.

Lemma accepted_run_length (n : nat) (c : Z) (r : Q) :
  length (accepted_run L n c r) = n.
Proof. revert c. induction n; intros c; cbn; [reflexivity|]. now rewrite IHn. Qed.

(** [n] calls inside an open window with room for all of them. *)
Lemma repeat_check_accepts (n : nat) : forall (w : World) (c : Z) (r : Q),
  _rate_limit_store w !! k = Some (mk_window c r) ->
  c + Z.of_nat n <= L ->
  (forall i, (i < n)%nat -> (clock w (ticks w + i) <= r)%Q) ->
  repeat_check n k tier w =
    (Return (accepted_run L n c r),
     with_ticks (fun t => (t + n)%nat)
       (with_store (insert k (mk_window (c + Z.of_nat n) r)) w)).
Proof.
  induction n as [|n IH]; intros w c r Hk Hroom Hin.
  - cbn. unfold ret. f_equal. apply world_eq; cbn; try reflexivity.
    + rewrite Z.add_0_r. symmetry. apply insert_id. exact Hk.
    + lia.
  - cbn [repeat_check]. unfold bind at 1.
    rewrite (check_accepts w c r Hk); cycle 1.
    { unfold next_reading. specialize (Hin O ltac:(lia)).
      now rewrite Nat.add_0_r in Hin. }
    { lia. }
    unfold bind at 1.
    rewrite (IH _ (c + 1) r); cycle 1.
    { cbn. apply lookup_insert_eq. }
    { lia. }
    { intros i Hi. cbn. specialize (Hin (S i) ltac:(lia)).
      now rewrite Nat.add_succ_r in Hin. }
    unfold ret. cbn [accepted_run]. f_equal.
    apply world_eq; cbn; try reflexivity.
    + rewrite insert_insert_eq. do 2 f_equal. lia.
    + lia.
Qed.

(** [n] calls inside an open window that is used up: all denied. *)
Lemma repeat_check_denies (n : nat) : forall (w : World) (c : Z) (r : Q),
  _rate_limit_store w !! k = Some (mk_window c r) ->
  L <= c ->
  (forall i, (i < n)%nat -> (clock w (ticks w + i) <= r)%Q) ->
  repeat_check n k tier w =
    (Return (replicate n (false, Int 0, Py.int r)),
     with_ticks (fun t => (t + n)%nat) w).
Proof.
  induction n as [|n IH]; intros w c r Hk Hfull Hin.
  - cbn. unfold ret. f_equal. apply world_eq; cbn; try reflexivity. lia.
  - cbn [repeat_check]. unfold bind at 1.
    rewrite (check_denies w c r Hk); cycle 1.
    { unfold next_reading. specialize (Hin O ltac:(lia)).
      now rewrite Nat.add_0_r in Hin. }
    { exact Hfull. }
    unfold bind at 1.
    rewrite (IH _ c r); cycle 1.
    { exact Hk. }
    { exact Hfull. }
    { intros i Hi. cbn. specialize (Hin (S i) ltac:(lia)).
      now rewrite Nat.add_succ_r in Hin. }
    unfold ret. cbn [replicate]. f_equal.
    apply world_eq; cbn; try reflexivity. lia.
Qed.

(** Calls served one after the other inside an open window with [a] slots
    left: the first [a] are accepted, every later one is denied. *)
Lemma serial_admission (a b : nat) : forall (w : World) (c : Z) (r : Q),
  _rate_limit_store w !! k = Some (mk_window c r) ->
  c + Z.of_nat a = L ->
  (forall i, (i < a + b)%nat -> (clock w (ticks w + i) <= r)%Q) ->
  fst (repeat_check (a + b) k tier w) =
    Return (accepted_run L a c r ++ replicate b (false, Int 0, Py.int r))%list.
Proof.
  induction a as [|a IH]; intros w c r Hk Hroom Hin.
  - cbn [Nat.add accepted_run app].
    rewrite (repeat_check_denies b w c r Hk); [reflexivity|lia|exact Hin].
  - cbn [Nat.add repeat_check]. unfold bind at 1.
    rewrite (check_accepts w c r Hk); cycle 1.
    { unfold next_reading. specialize (Hin O ltac:(lia)).
      now rewrite Nat.add_0_r in Hin. }
    { lia. }
    unfold bind at 1.
    specialize (IH (with_ticks S (with_store (insert k (mk_window (c + 1) r)) w))
                   (c + 1) r).
    destruct (repeat_check (a + b) k tier _) as [[rs|e] w'] eqn:E.
    + cbn [fst] in IH.
      assert (Return rs = Return (accepted_run L a (c + 1) r
                                    ++ replicate b (false, Int 0, Py.int r))%list) as [= ->].
      { apply IH.
        - cbn. apply lookup_insert_eq.
        - lia.
        - intros i Hi. cbn. specialize (Hin (S i) ltac:(lia)).
          now rewrite Nat.add_succ_r in Hin. }
      unfold ret. reflexivity.
    + exfalso. cbn [fst] in IH.
      assert (Raise e = Return (accepted_run L a (c + 1) r
                                  ++ replicate b (false, Int 0, Py.int r))%list) as Habs.
      { apply IH.
        - cbn. apply lookup_insert_eq.
        - lia.
        - intros i Hi. cbn. specialize (Hin (S i) ltac:(lia)).
          now rewrite Nat.add_succ_r in Hin. }
      discriminate.
Qed.

End Window.

(** ** C1 and C5: the fixed window *)

(** C1. For every key and every tier with a finite ceiling [L]: when a call
    opens a new window and the next [L] calls fall inside it, the first [L]
    calls are all accepted, the [i]-th (from 0) with [L - 1 - i] remaining, so
    the [L]-th reports 0; the stored count is then [L]; and the call after
    them returns [(False, 0, reset_at)] and leaves the store, hence the
    count, as it was. *)
Theorem limit_reached_then_denied (k tier : string) (L : Z) (w : World) :
  limit_of tier = Int L ->
  (reset_at (window_at k w) < next_reading w)%Q ->
  (forall i, (1 <= i <= Z.to_nat L)%nat ->
     (clock w (ticks w + i) <= next_reading w + RATE_LIMIT_WINDOW)%Q) ->
  exists results w1,
    repeat_check (Z.to_nat L) k tier w = (Return results, w1) /\
    length results = Z.to_nat L /\
    (forall i, (i < Z.to_nat L)%nat ->
       results !! i =
         Some (true, Int (L - 1 - Z.of_nat i),
               Py.int (next_reading w + RATE_LIMIT_WINDOW))) /\
    last results =
      Some (true, Int 0, Py.int (next_reading w + RATE_LIMIT_WINDOW)) /\
    _rate_limit_store w1 !! k =
      Some (mk_window L (next_reading w + RATE_LIMIT_WINDOW)) /\
    check_rate_limit k tier w1 =
      (Return (false, Int 0, Py.int (next_reading w + RATE_LIMIT_WINDOW)),
       with_ticks S w1).
Proof.
  intros HL Hexp Hin.
  pose proof (finite_limit_positive _ _ HL) as Hpos.
  set (r := (next_reading w + RATE_LIMIT_WINDOW)%Q) in *.
  destruct (Z.to_nat L) as [|m] eqn:Hm; [lia|].
  assert (HmL : Z.of_nat m = L - 1) by lia.
  cbn [repeat_check]. unfold bind at 1.
  rewrite (check_reopens k tier L HL w Hexp). fold r.
  set (w0 := with_ticks S (with_store (insert k (mk_window 1 r)) w)).
  unfold bind at 1.
  rewrite (repeat_check_accepts k tier L HL m w0 1 r); cycle 1.
  { apply lookup_insert_eq. }
  { lia. }
  { intros i Hi. cbn. specialize (Hin (S i) ltac:(lia)).
    now rewrite Nat.add_succ_r in Hin. }
  unfold ret.
  assert (Hrun : (true, Int (L - 1), Py.int r) :: accepted_run L m 1 r
                 = accepted_run L (S m) 0 r).
  { cbn [accepted_run]. now rewrite Z.sub_0_r. }
  rewrite Hrun.
  eexists _, _. split; [reflexivity|].
  split; [apply accepted_run_length|].
  split.
  { intros i Hi. rewrite accepted_run_lookup by exact Hi.
    now rewrite Z.sub_0_r. }
  split.
  { rewrite last_lookup, accepted_run_length. cbn [Nat.pred].
    rewrite accepted_run_lookup by lia.
    replace (L - 0 - 1 - Z.of_nat m) with 0 by lia. reflexivity. }
  assert (Hk : _rate_limit_store
                 (with_ticks (fun t => (t + m)%nat)
                    (with_store (insert k (mk_window (1 + Z.of_nat m) r)) w0)) !! k
               = Some (mk_window L r)).
  { cbn. rewrite lookup_insert_eq. do 2 f_equal. lia. }
  split; [exact Hk|].
  apply (check_denies k tier L HL _ L r Hk); [|lia].
  unfold next_reading. cbn.
  specialize (Hin (S m) ltac:(lia)).
  now rewrite Nat.add_succ_r in Hin.
Qed.

Lemma limit_reached_then_denied_witness :
  exists results w1,
    repeat_check 100 "demo-key-free" "free"
      (mk_world ∅ ∅ (mk_db true None None None) (fun _ => 1%Q) 0 (fun _ => "")
                empty_state) = (Return results, w1) /\
    last results = Some (true, Int 0, 3601) /\
    check_rate_limit "demo-key-free" "free" w1 =
      (Return (false, Int 0, 3601), with_ticks S w1).
Proof.
  destruct (limit_reached_then_denied "demo-key-free" "free" 100
              (mk_world ∅ ∅ (mk_db true None None None) (fun _ => 1%Q) 0
                        (fun _ => "") empty_state))
    as (results & w1 & Hrun & _ & _ & Hlast & _ & Hdeny).
  - reflexivity.
  - reflexivity.
  - intros i _. cbn. discriminate.
  - exists results, w1. repeat split; assumption.
Defined.

(** C5. For every key and tier: a call made strictly after the stored
    window's [reset_at] is accepted and leaves that window with a count of 1
    and a [reset_at] of the call time plus 3600 seconds. *)
Theorem expired_window_restarts (k tier : string) (w : World) (win : Window) :
  _rate_limit_store w !! k = Some win ->
  (reset_at win < next_reading w)%Q ->
  exists remaining w',
    check_rate_limit k tier w =
      (Return (true, remaining, Py.int (next_reading w + 3600)), w') /\
    _rate_limit_store w' !! k = Some (mk_window 1 (next_reading w + 3600)).
Proof.
  intros Hk Hexp. rewrite check_rate_limit_unfold.
  unfold verdict, window_after, current_window, window_at.
  rewrite Hk. cbn [default id].
  apply gtb_true_iff in Hexp. rewrite Hexp. cbn [count reset_at].
  rewrite limit_of_not_reached_at_0.
  eexists _, _. split; [reflexivity|].
  cbn. apply lookup_insert_eq.
Qed.

Lemma expired_window_restarts_witness :
  exists remaining w',
    check_rate_limit "admin-key-unlimited" "unlimited"
      (mk_world (<["admin-key-unlimited" := mk_window 7 1000]> ∅) ∅
                (mk_db true None None None) (fun _ => 1001%Q) 0 (fun _ => "")
                empty_state)
    = (Return (true, remaining, 4601), w') /\
    _rate_limit_store w' !! "admin-key-unlimited" = Some (mk_window 1 (1001 + 3600)).
Proof.
  apply (expired_window_restarts "admin-key-unlimited" "unlimited"
           (mk_world (<["admin-key-unlimited" := mk_window 7 1000]> ∅) ∅
                     (mk_db true None None None) (fun _ => 1001%Q) 0
                     (fun _ => "") empty_state)
           (mk_window 7 1000)).
  - reflexivity.
  - reflexivity.
Defined.

(** ** C7 and C6: key resolution *)

Lemma ltb_false_iff (a b : Q) : Py.ltb a b = false <-> (b <= a)%Q.
Proof. unfold Py.ltb. rewrite negb_false_iff. apply Qle_bool_iff. Qed.

(** Without a usable cache entry, resolution of a non-static credential is the
    database lookup, after the clock reading of the cache test if there was
    an entry to test. *)
Lemma validate_api_key_uncached (api_key : string) (w : World) :
  Py.truthy_str api_key = true ->
  DEMO_API_KEYS !! api_key = None ->
  freshly_cached api_key w = false ->
  validate_api_key api_key w =
    database_lookup api_key ("apikey_" +:+ api_key)
      (match _api_keys_cache w !! ("apikey_" +:+ api_key) with
       | Some _ => with_ticks S w
       | None => w
       end).
Proof.
  intros Ht Hd Hc. unfold validate_api_key, freshly_cached in *.
  rewrite Ht, Hd. cbn [negb].
  unfold bind at 1. unfold get at 1.
  destruct (_api_keys_cache w !! ("apikey_" +:+ api_key)) as [[cached cached_at]|].
  - unfold bind at 1. unfold bind at 1. unfold time_time at 1.
    fold (next_reading w). rewrite Hc. reflexivity.
  - reflexivity.
Qed.

(** A lookup that raises is swallowed: no result, nothing changed. *)
Lemma database_lookup_raises (api_key cache_key : string) (w : World) :
  lookup_raises api_key (database w) = true ->
  database_lookup api_key cache_key w = (Return None, w).
Proof.
  unfold lookup_raises, database_lookup. intros H.
  unfold bind at 1. unfold get at 1.
  destruct (reachable (database w)); cbn [negb orb] in *; [|reflexivity].
  destruct (select_users api_key (database w)) as [|[row|]]; try discriminate;
    [reflexivity|].
  destruct (select_api_keys api_key (database w)) as [|[row|]]; try discriminate;
    reflexivity.
Qed.

(** The lookup returns what it finds and writes it through to the cache with
    the reading of the clock. *)
Lemma database_lookup_eq (api_key cache_key : string) (w : World) :
  database_lookup api_key cache_key w =
    match fetched api_key (database w) with
    | Some info =>
        (Return (Some info),
         with_cache (insert cache_key (info, next_reading w)) (with_ticks S w))
    | None => (Return None, w)
    end.
Proof.
  unfold database_lookup, fetched, cache_set, bind, get, ret, modify, time_time,
    next_reading.
  destruct (reachable (database w)); cbn [negb]; [|reflexivity].
  destruct (select_users api_key (database w)) as [|[row|]]; try reflexivity.
  destruct (select_api_keys api_key (database w)) as [|[row|]]; reflexivity.
Qed.

(** What the database lookup returns depends on the database alone. *)
Lemma database_lookup_value (api_key cache_key : string) (w1 w2 : World) :
  database w1 = database w2 ->
  fst (database_lookup api_key cache_key w1) =
  fst (database_lookup api_key cache_key w2).
Proof.
  intros Hdb. rewrite !database_lookup_eq, Hdb.
  destruct (fetched api_key (database w2)); reflexivity.
Qed.

(** C7. For every credential that is resolved beyond the static registry: a
    cached entry whose age is the TTL (300 seconds) or more is not returned.
    Resolution is the database lookup, run after the clock reading of the
    age test, and it returns what it returns when the entry is absent. *)
Theorem stale_entry_not_served (api_key : string) (w : World)
    (cached : key_info) (cached_at : Q) :
  Py.truthy_str api_key = true ->
  DEMO_API_KEYS !! api_key = None ->
  _api_keys_cache w !! ("apikey_" +:+ api_key) = Some (cached, cached_at) ->
  (300 <= next_reading w - cached_at)%Q ->
  validate_api_key api_key w =
    database_lookup api_key ("apikey_" +:+ api_key) (with_ticks S w) /\
  fst (validate_api_key api_key w) =
    fst (validate_api_key api_key
           (with_cache (delete ("apikey_" +:+ api_key)) w)).
Proof.
  intros Ht Hd Hc Hage.
  assert (Hstale : freshly_cached api_key w = false).
  { unfold freshly_cached. rewrite Hc. apply ltb_false_iff. exact Hage. }
  split.
  - rewrite validate_api_key_uncached by assumption. now rewrite Hc.
  - rewrite !validate_api_key_uncached; try assumption.
    + apply database_lookup_value.
      cbn. rewrite Hc, lookup_delete_eq. reflexivity.
    + unfold freshly_cached. cbn. now rewrite lookup_delete_eq.
Qed.

Lemma stale_entry_not_served_witness :
  fst (validate_api_key "rsk_a" stale_world)
  = Return (Some (mk_key_info "rsk_a" "developer" "Ann" (Some true) (Some 7))).
Proof.
  destruct (stale_entry_not_served "rsk_a" stale_world
              (mk_key_info "rsk_a" "free" "Ann" (Some true) (Some 7)) 0%Q)
    as [H _].
  - reflexivity.
  - reflexivity.
  - reflexivity.
  - cbn. discriminate.
  - rewrite H. reflexivity.
Defined.

(** C6. For every credential that is not in the static registry and not
    freshly cached, on a route that is not in the public allowlist: when a
    statement of the database lookup raises, [validate_api_key] returns
    [None] without raising and without changing the cache or the quota
    store, and [require_api_key] raises the 401 [Invalid API key], again
    leaving the quota store as it was. *)
Theorem lookup_failure_fails_closed (request : Request) (api_key : string)
    (w : World) :
  url_path request ∉ public_paths ->
  Py.truthy_str api_key = true ->
  DEMO_API_KEYS !! api_key = None ->
  freshly_cached api_key w = false ->
  lookup_raises api_key (database w) = true ->
  (exists w',
     validate_api_key api_key w = (Return None, w') /\
     _api_keys_cache w' = _api_keys_cache w /\
     _rate_limit_store w' = _rate_limit_store w) /\
  (exists w',
     require_api_key request (Some api_key) w =
       (Raise (HTTP (mk_exc 401 "Invalid API key"
                            [("WWW-Authenticate", "API key invalid")])), w') /\
     _rate_limit_store w' = _rate_limit_store w).
Proof.
  intros Hpath Ht Hd Hc Hraise.
  assert (Hv : exists w',
             validate_api_key api_key w = (Return None, w') /\
             _api_keys_cache w' = _api_keys_cache w /\
             _rate_limit_store w' = _rate_limit_store w).
  { rewrite validate_api_key_uncached by assumption.
    destruct (_api_keys_cache w !! ("apikey_" +:+ api_key));
      rewrite database_lookup_raises by exact Hraise; eauto. }
  split; [exact Hv|].
  destruct Hv as (w' & Hv & _ & Hstore).
  unfold require_api_key.
  rewrite bool_decide_eq_false_2 by exact Hpath.
  rewrite Ht. cbn [negb]. unfold bind at 1. rewrite Hv.
  eexists. split; [reflexivity|exact Hstore].
Qed.

Lemma lookup_failure_fails_closed_witness :
  exists w',
    require_api_key
      (mk_request "/api/v1/accidents" "GET" (<["X-API-Key" := "rsk_a"]> ∅) ∅
                  (Some "10.0.0.1"))
      (Some "rsk_a")
      (mk_world ∅ ∅ (mk_db true None None None) (fun _ => 5%Q) 0 (fun _ => "")
                empty_state)
    = (Raise (HTTP (mk_exc 401 "Invalid API key"
                           [("WWW-Authenticate", "API key invalid")])), w') /\
    _rate_limit_store w' = ∅.
Proof.
  apply (lookup_failure_fails_closed
           (mk_request "/api/v1/accidents" "GET" (<["X-API-Key" := "rsk_a"]> ∅) ∅
                       (Some "10.0.0.1"))
           "rsk_a"
           (mk_world ∅ ∅ (mk_db true None None None) (fun _ => 5%Q) 0
                     (fun _ => "") empty_state)).
  - unfold public_paths. intros H. repeat (apply elem_of_cons in H as [H|H]; [discriminate|]).
    inversion H.
  - reflexivity.
  - reflexivity.
  - reflexivity.
  - reflexivity.
Defined.

(** ** The route guards *)

(** Key resolution always returns: it raises nothing, and touches only the
    cache and the clock. *)
Lemma validate_api_key_total (k : string) (w : World) :
  exists o w',
    validate_api_key k w = (Return o, w') /\
    _rate_limit_store w' = _rate_limit_store w /\
    state w' = state w /\
    database w' = database w /\
    isoformat w' = isoformat w /\
    clock w' = clock w.
Proof.
  unfold validate_api_key.
  destruct (Py.truthy_str k); cbn [negb]; [|unfold ret; eauto 10].
  destruct (DEMO_API_KEYS !! k) as [d|].
  { destruct (demo_active d); unfold ret; eauto 10. }
  unfold bind at 1. unfold get at 1.
  destruct (_api_keys_cache w !! ("apikey_" +:+ k)) as [[cached cached_at]|].
  - unfold bind at 1. unfold bind at 1. unfold time_time at 1.
    destruct (Py.ltb _ _).
    + unfold ret. eauto 10.
    + unfold ret at 1. rewrite database_lookup_eq.
      destruct (fetched k _); eauto 10.
  - unfold bind at 1. unfold ret at 1. rewrite database_lookup_eq.
    destruct (fetched k _); eauto 10.
Qed.

(** A credential that resolves is not empty. *)
Lemma validate_api_key_some_truthy (k : string) (w w1 : World) (info : key_info) :
  validate_api_key k w = (Return (Some info), w1) -> Py.truthy_str k = true.
Proof.
  unfold validate_api_key. destruct (Py.truthy_str k); [reflexivity|].
  cbn. unfold ret. discriminate.
Qed.

(** A credential that does not resolve leaves everything but the clock. *)
Lemma validate_api_key_none (k : string) (w w1 : World) :
  validate_api_key k w = (Return None, w1) -> w1 = w \/ w1 = with_ticks S w.
Proof.
  unfold validate_api_key.
  destruct (Py.truthy_str k); cbn [negb]; [|unfold ret; intros [= <-]; now left].
  destruct (DEMO_API_KEYS !! k) as [d|].
  { destruct (demo_active d); unfold ret; intros [= <-]; now left. }
  unfold bind at 1. unfold get at 1.
  destruct (_api_keys_cache w !! ("apikey_" +:+ k)) as [[cached cached_at]|].
  - unfold bind at 1. unfold bind at 1. unfold time_time at 1.
    destruct (Py.ltb _ _).
    + unfold ret. discriminate.
    + unfold ret at 1. rewrite database_lookup_eq.
      destruct (fetched k _); [discriminate|]. intros [= <-]. now right.
  - unfold bind at 1. unfold ret at 1. rewrite database_lookup_eq.
    destruct (fetched k _); [discriminate|]. intros [= <-]. now left.
Qed.

(** The reset time a call reports is the one of the window it leaves. *)
Lemma verdict_reset (now : Q) (t : string) (win : Window) :
  snd (verdict now t win) = Py.int (reset_at (window_after now t win)).
Proof.
  unfold verdict, window_after.
  destruct (Py.geb _ _); reflexivity.
Qed.

Lemma verdict_denied (now : Q) (t : string) (win : Window) :
  fst (fst (verdict now t win)) = false ->
  verdict now t win = (false, Int 0, Py.int (reset_at (current_window now win))) /\
  window_after now t win = current_window now win.
Proof.
  unfold verdict, window_after.
  destruct (Py.geb _ _); cbn; [tauto|discriminate].
Qed.

Lemma verdict_allowed (now : Q) (t : string) (win : Window) :
  fst (fst (verdict now t win)) = true ->
  window_after now t win =
    mk_window (count (current_window now win) + 1)
              (reset_at (current_window now win)).
Proof.
  unfold verdict, window_after.
  destruct (Py.geb _ _); cbn; [discriminate|reflexivity].
Qed.

Lemma not_public_path (request : Request) :
  url_path request ∉ public_paths ->
  bool_decide (url_path request ∈ public_paths) = false.
Proof. intros H. now apply bool_decide_eq_false_2. Qed.

Lemma require_api_key_enforces (request : Request) (k : string) (w w1 : World)
    (info : key_info) :
  url_path request ∉ public_paths ->
  is_dashboard_request request = false ->
  validate_api_key k w = (Return (Some info), w1) ->
  exists res w',
    require_api_key request (Some k) w = (res, w') /\
    enforced (rate_limit_key_of info k) (tier info) info w1 res w'.
Proof.
  intros Hpath Hdash Hv.
  pose proof (validate_api_key_some_truthy _ _ _ _ Hv) as Ht.
  unfold require_api_key, enforced.
  rewrite (not_public_path _ Hpath), Ht. cbn [negb].
  unfold bind at 1. rewrite Hv. rewrite Hdash.
  unfold bind at 1. unfold modify at 1.
  unfold bind at 1.
  rewrite check_rate_limit_unfold.
  unfold next_reading, window_at.
  cbn [clock ticks _rate_limit_store with_state with_ticks with_store].
  set (now := clock w1 (ticks w1)).
  set (win0 := default default_window (_rate_limit_store w1 !! rate_limit_key_of info k)).
  pose proof (verdict_reset now (tier info) win0) as Hreset.
  destruct (verdict now (tier info) win0) as [[allowed remaining] reset].
  cbn [fst snd] in *. subst reset.
  unfold bind at 1. unfold set_rate_limit_state, modify.
  destruct allowed; cbn [negb].
  - unfold ret. eexists _, _. split; [reflexivity|].
    cbn. repeat split; eauto.
  - unfold bind at 1. unfold get at 1. unfold bind at 1. unfold time_time at 1.
    unfold raise. eexists _, _. split; [reflexivity|].
    cbn. repeat split; eauto.
Qed.

Lemma anonymous_rate_limit_enforces (request : Request) (w : World) :
  exists res w',
    anonymous_rate_limit request w = (res, w') /\
    enforced (anonymous_key request) "free" (anonymous_info request) w res w'.
Proof.
  unfold anonymous_rate_limit, enforced, anonymous_info, anonymous_key.
  set (akey := "anon_" +:+ default "unknown" (client request)).
  unfold bind at 1.
  rewrite check_rate_limit_unfold.
  set (now := next_reading w).
  set (win0 := window_at akey w).
  pose proof (verdict_reset now "free" win0) as Hreset.
  destruct (verdict now "free" win0) as [[allowed remaining] reset].
  cbn [fst snd] in *. subst reset.
  unfold bind at 1. unfold modify.
  destruct allowed; cbn [negb].
  - unfold ret. eexists _, _. split; [reflexivity|].
    cbn. repeat split; eauto.
  - unfold raise. eexists _, _. split; [reflexivity|].
    cbn. repeat split; eauto.
Qed.

Lemma optional_api_key_enforces (request : Request) (k : string) (w w1 : World)
    (info : key_info) :
  validate_api_key k w = (Return (Some info), w1) ->
  exists res w',
    optional_api_key request (Some k) w = (res, w') /\
    enforced (rate_limit_key_of info k) (tier info) info w1 res w'.
Proof.
  intros Hv.
  pose proof (validate_api_key_some_truthy _ _ _ _ Hv) as Ht.
  unfold optional_api_key, enforced.
  rewrite Ht. unfold bind at 1. rewrite Hv.
  unfold bind at 1.
  rewrite check_rate_limit_unfold.
  set (now := next_reading w1).
  set (win0 := window_at (rate_limit_key_of info k) w1).
  pose proof (verdict_reset now (tier info) win0) as Hreset.
  destruct (verdict now (tier info) win0) as [[allowed remaining] reset].
  cbn [fst snd] in *. subst reset.
  unfold bind at 1. unfold modify.
  destruct allowed; cbn [negb].
  - unfold ret. eexists _, _. split; [reflexivity|].
    cbn. repeat split; eauto.
  - unfold raise. eexists _, _. split; [reflexivity|].
    cbn. repeat split; eauto.
Qed.

(** A credential that does not resolve sends the optional guard down the
    anonymous path, from the world key resolution leaves. *)
Lemma optional_api_key_unresolved (request : Request) (k : string) (w w1 : World) :
  validate_api_key k w = (Return None, w1) ->
  optional_api_key request (Some k) w = anonymous_rate_limit request w1.
Proof.
  intros Hv. unfold optional_api_key.
  destruct (Py.truthy_str k) eqn:Ht.
  - unfold bind at 1. now rewrite Hv.
  - unfold validate_api_key in Hv. rewrite Ht in Hv. cbn in Hv.
    unfold ret in Hv. now injection Hv as <-.
Qed.

(** The required guard on a dashboard request with a credential that
    resolves: no quota check, the store is as it was, the identity is
    returned. *)
Lemma require_api_key_dashboard (request : Request) (k : string) (w w1 : World)
    (info : key_info) :
  url_path request ∉ public_paths ->
  is_dashboard_request request = true ->
  validate_api_key k w = (Return (Some info), w1) ->
  exists w',
    require_api_key request (Some k) w = (Return info, w') /\
    _rate_limit_store w' = _rate_limit_store w.
Proof.
  intros Hpath Hdash Hv.
  pose proof (validate_api_key_some_truthy _ _ _ _ Hv) as Ht.
  destruct (validate_api_key_total k w) as (o & w1' & Hv' & Hstore & _).
  rewrite Hv in Hv'. injection Hv' as <- <-.
  unfold require_api_key.
  rewrite (not_public_path _ Hpath), Ht. cbn [negb].
  unfold bind at 1. rewrite Hv. rewrite Hdash.
  unfold bind at 1. unfold modify at 1.
  unfold bind at 1. unfold time_time at 1.
  unfold bind at 1. unfold set_rate_limit_state, modify, ret.
  eexists. split; [reflexivity|]. cbn. exact Hstore.
Qed.

(** Whatever the credential and the path, the required guard on a dashboard
    request leaves the quota store as it was and raises no 429. *)
Lemma require_api_key_dashboard_exempt (request : Request) (api_key : option string)
    (w : World) :
  is_dashboard_request request = true ->
  _rate_limit_store (snd (require_api_key request api_key w)) = _rate_limit_store w /\
  forall e, fst (require_api_key request api_key w) = Raise (HTTP e) ->
            status_code e <> 429.
Proof.
  intros Hdash.
  destruct (require_api_key request api_key w) as [r w'] eqn:E. cbn [fst snd].
  unfold require_api_key in E.
  destruct (bool_decide (url_path request ∈ public_paths)).
  { unfold ret in E. injection E as <- <-. split; [reflexivity|discriminate]. }
  destruct api_key as [k|]; cycle 1.
  { unfold raise in E. injection E as <- <-.
    split; [reflexivity|]. intros e [= <-]. cbn. lia. }
  destruct (Py.truthy_str k); cbn [negb] in E; cycle 1.
  { unfold raise in E. injection E as <- <-.
    split; [reflexivity|]. intros e [= <-]. cbn. lia. }
  destruct (validate_api_key_total k w) as (o & w1 & Hv & Hstore & _).
  unfold bind at 1 in E. rewrite Hv in E.
  destruct o as [info|]; cycle 1.
  { unfold raise in E. injection E as <- <-.
    split; [exact Hstore|]. intros e [= <-]. cbn. lia. }
  rewrite Hdash in E.
  unfold bind, modify, time_time, set_rate_limit_state, ret in E.
  injection E as <- <-. cbn.
  split; [exact Hstore|discriminate].
Qed.

(** ** C2: dashboard requests *)

(** C2, at the input where the code departs from it: a request with
    [X-Dashboard: true] and the valid credential [demo-key-free], through
    [optional_api_key].  The stored count goes from nothing to 1, and with
    the window used up the request is rejected with a 429. *)
Theorem optional_api_key_counts_dashboard_request :
  is_dashboard_request dashboard_request = true /\
  fst (validate_api_key "demo-key-free" (idle_world no_database))
    = Return (Some (mk_key_info "demo-key-free" "free" "Demo Free" (Some true) None)) /\
  count <$> (_rate_limit_store
               (snd (optional_api_key dashboard_request (Some "demo-key-free")
                       (idle_world no_database))) !! "demo-key-free") = Some 1 /\
  fst (optional_api_key dashboard_request (Some "demo-key-free")
         (spent_world "demo-key-free" 100 no_database))
    = Raise (HTTP (mk_exc 429 "Rate limit exceeded" [])).
Proof.
  repeat split; vm_compute; reflexivity.
Qed.

(** ** C3: the quota key *)

(** C3, at the input where the code departs from it: a registered user whose
    id is 0.  The resolved identity carries the user-id 0, yet the quota is
    counted under the credential string and there is no window under
    [user_0]; after the key is regenerated, the next request starts a second
    window under the new string and the first one stays behind. *)
Theorem user_id_zero_keyed_by_credential :
  let first := require_api_key (external_request "rsk_a") (Some "rsk_a")
                 (idle_world zero_database) in
  let second := require_api_key (external_request "rsk_b") (Some "rsk_b")
                  (with_database (fun _ => zero_database_rotated)
                     (new_request (snd first))) in
  fst first = Return (mk_key_info "rsk_a" "free" "Zed" (Some true) (Some 0)) /\
  _rate_limit_store (snd first) !! "user_0" = None /\
  count <$> (_rate_limit_store (snd first) !! "rsk_a") = Some 1 /\
  fst second = Return (mk_key_info "rsk_b" "free" "Zed" (Some true) (Some 0)) /\
  _rate_limit_store (snd second) !! "user_0" = None /\
  count <$> (_rate_limit_store (snd second) !! "rsk_a") = Some 1 /\
  count <$> (_rate_limit_store (snd second) !! "rsk_b") = Some 1.
Proof.
  repeat split; vm_compute; reflexivity.
Qed.

Lemma rate_limit_key_of_user (info : key_info) (k : string) (u : Z) :
  user_id info = Some u -> u <> 0 ->
  rate_limit_key_of info k = "user_" +:+ pretty u.
Proof.
  intros Hu Hnz. unfold rate_limit_key_of. rewrite Hu. cbn.
  destruct (Z.eqb_spec u 0); [contradiction|reflexivity].
Qed.

(** When quota is enforced, the window found is the one stored before key
    resolution: resolution does not touch the store. *)
Lemma enforced_store (g : Guard) (request : Request) (k : string)
    (w w1 : World) (info : key_info) :
  (g = Required ->
   (url_path request ∉ public_paths) /\ is_dashboard_request request = false) ->
  validate_api_key k w = (Return (Some info), w1) ->
  exists res w',
    run_guard g request (Some k) w = (res, w') /\
    enforced (rate_limit_key_of info k) (tier info) info w1 res w' /\
    _rate_limit_store w1 = _rate_limit_store w.
Proof.
  intros Hg Hv.
  destruct (validate_api_key_total k w) as (o & w1' & Hv' & Hstore & _).
  rewrite Hv in Hv'. injection Hv' as <- <-.
  destruct g; cbn [run_guard].
  - destruct (Hg eq_refl) as [Hpath Hdash].
    destruct (require_api_key_enforces request k w w1 info Hpath Hdash Hv)
      as (res & w' & Hrun & Henf).
    eauto.
  - destruct (optional_api_key_enforces request k w w1 info Hv)
      as (res & w' & Hrun & Henf).
    eauto.
Qed.

(** For every identity whose resolved info carries a user-id other than 0,
    on either guard when it enforces quota: the only entry of
    the quota store the request writes is the one under [user_<id>], and the
    window it consumes is the one stored there, whatever the credential
    string.  So two credential strings that resolve to the same user-id
    consume the same window, and a new credential string neither restarts
    that window nor creates another one. *)
Lemma quota_keyed_by_user_id (g : Guard) (request : Request) (k : string)
    (w w1 : World) (info : key_info) (u : Z) :
  (g = Required ->
   (url_path request ∉ public_paths) /\ is_dashboard_request request = false) ->
  validate_api_key k w = (Return (Some info), w1) ->
  user_id info = Some u ->
  u <> 0 ->
  exists res w',
    run_guard g request (Some k) w = (res, w') /\
    _rate_limit_store w' =
      <["user_" +:+ pretty u :=
          window_after (next_reading w1) (tier info)
                       (window_at ("user_" +:+ pretty u) w)]>
        (_rate_limit_store w) /\
    (forall k', k' <> "user_" +:+ pretty u ->
                _rate_limit_store w' !! k' = _rate_limit_store w !! k') /\
    (res = Return info \/ exists e, res = Raise (HTTP e) /\ status_code e = 429).
Proof.
  intros Hg Hv Hu Hnz.
  destruct (enforced_store g request k w w1 info Hg Hv)
    as (res & w' & Hrun & Henf & Hstore).
  rewrite (rate_limit_key_of_user info k u Hu Hnz) in Henf.
  destruct Henf as (Hs & _ & _ & _ & _ & Hres).
  assert (Hwin : window_at ("user_" +:+ pretty u) w1
                 = window_at ("user_" +:+ pretty u) w).
  { unfold window_at. now rewrite Hstore. }
  rewrite Hwin, Hstore in Hs.
  exists res, w'. split; [exact Hrun|]. split; [exact Hs|]. split.
  - intros k' Hk'. rewrite Hs. apply lookup_insert_ne. congruence.
  - destruct (fst (fst (verdict _ _ _))); [now left|now right].
Qed.

Lemma quota_keyed_by_user_id_example :
  exists res w',
    require_api_key (external_request "rsk_a") (Some "rsk_a")
      (idle_world seven_database) = (res, w') /\
    count <$> (_rate_limit_store w' !! "user_7") = Some 1 /\
    _rate_limit_store w' !! "rsk_a" = None.
Proof.
  destruct (quota_keyed_by_user_id Required (external_request "rsk_a") "rsk_a"
              (idle_world seven_database)
              (with_cache
                 (insert "apikey_rsk_a"
                    (mk_key_info "rsk_a" "free" "Ann" (Some true) (Some 7), 10%Q))
                 (with_ticks S (idle_world seven_database)))
              (mk_key_info "rsk_a" "free" "Ann" (Some true) (Some 7)) 7)
    as (res & w' & Hrun & Hs & Hother & _).
  - intros _. split; [|reflexivity].
    unfold public_paths. intros H.
    repeat (apply elem_of_cons in H as [H|H]; [discriminate|]). inversion H.
  - reflexivity.
  - reflexivity.
  - lia.
  - exists res, w'. split; [exact Hrun|]. split.
    + rewrite Hs, lookup_insert_eq. reflexivity.
    + rewrite Hother by discriminate. reflexivity.
Defined.

(** ** C10: an unresolved credential on the optional guard *)

(** What the anonymous path answers, by the verdict of the quota check. *)
Lemma anonymous_rate_limit_result (request : Request) (w : World) :
  fst (anonymous_rate_limit request w) =
    if fst (fst (verdict (next_reading w) "free"
                         (window_at (anonymous_key request) w)))
    then Return (anonymous_info request)
    else Raise (HTTP (mk_exc 429
                 "Rate limit exceeded. Get an API key for higher limits." [])).
Proof.
  unfold anonymous_rate_limit, anonymous_info, anonymous_key.
  set (akey := "anon_" +:+ default "unknown" (client request)).
  unfold bind at 1.
  rewrite check_rate_limit_unfold.
  destruct (verdict (next_reading w) "free" (window_at akey w))
    as [[allowed remaining] reset].
  cbn [fst snd].
  unfold bind at 1. unfold modify.
  destruct allowed; reflexivity.
Qed.

(** C10. For every request to the optional guard with a credential that key
    resolution does not resolve: the guard continues as it does without a
    credential, from the world resolution leaves (the same world, or the same
    with one more clock reading taken).  Quota is enforced under
    [anon_<client address>] on the free tier: the window stored under that
    key is the one [check_rate_limit] leaves, and with [cur] the window the
    check finds after its expiry test, the request is rejected with the 429
    of the anonymous path exactly when the count of [cur] has reached 100,
    and answered with the anonymous identity otherwise.  It is never
    answered with a 401. *)
Theorem unresolved_credential_is_anonymous (request : Request) (k : string)
    (w w1 : World) :
  validate_api_key k w = (Return None, w1) ->
  (w1 = w \/ w1 = with_ticks S w) /\
  optional_api_key request (Some k) w = optional_api_key request None w1 /\
  exists res w',
    optional_api_key request (Some k) w = (res, w') /\
    _rate_limit_store w' =
      <[anonymous_key request :=
          window_after (next_reading w1) "free"
                       (window_at (anonymous_key request) w)]>
        (_rate_limit_store w) /\
    res =
      (if 100 <=? count (current_window (next_reading w1)
                           (window_at (anonymous_key request) w))
       then Raise (HTTP (mk_exc 429
                     "Rate limit exceeded. Get an API key for higher limits." []))
       else Return (anonymous_info request)) /\
    enforced (anonymous_key request) "free" (anonymous_info request) w1 res w'.
Proof.
  intros Hv.
  pose proof (validate_api_key_none _ _ _ Hv) as Hw1.
  split; [exact Hw1|].
  rewrite (optional_api_key_unresolved request k w w1 Hv).
  split; [reflexivity|].
  pose proof (anonymous_rate_limit_result request w1) as Hresult.
  destruct (anonymous_rate_limit_enforces request w1)
    as (res & w' & Hrun & Henf).
  rewrite Hrun in Hresult. cbn [fst] in Hresult.
  assert (Hstore : _rate_limit_store w1 = _rate_limit_store w).
  { destruct Hw1 as [->| ->]; reflexivity. }
  assert (Hwin : window_at (anonymous_key request) w1
                 = window_at (anonymous_key request) w).
  { unfold window_at. now rewrite Hstore. }
  exists res, w'. split; [exact Hrun|]. split; [|split; [|exact Henf]].
  - destruct Henf as (Hs & _). now rewrite Hwin, Hstore in Hs.
  - rewrite Hresult, Hwin. unfold verdict.
    change (limit_of "free") with (Int 100). cbn [Py.geb].
    destruct (100 <=? _); reflexivity.
Qed.

Lemma unresolved_credential_is_anonymous_witness :
  exists w',
    optional_api_key (external_request "bogus") (Some "bogus")
      (spent_world "anon_10.0.0.1" 100 no_database)
    = (Raise (HTTP (mk_exc 429
                "Rate limit exceeded. Get an API key for higher limits." [])), w') /\
    count <$> (_rate_limit_store w' !! "anon_10.0.0.1") = Some 100.
Proof.
  destruct (unresolved_credential_is_anonymous (external_request "bogus") "bogus"
              (spent_world "anon_10.0.0.1" 100 no_database)
              (spent_world "anon_10.0.0.1" 100 no_database))
    as (_ & _ & res & w' & Hrun & Hs & Hres & _).
  - reflexivity.
  - exists w'. split.
    + rewrite Hrun, Hres. reflexivity.
    + rewrite Hs, lookup_insert_eq. reflexivity.
Defined.

(** ** The middleware *)

Lemma add_rate_limit_headers_ready (s : State) (response : Response) (w : World) :
  headers_ready s = true ->
  add_rate_limit_headers s response w = (Return (with_rate_limit_headers s response), w).
Proof.
  unfold headers_ready, add_rate_limit_headers, with_rate_limit_headers.
  destruct (st_rate_limit_remaining s); [|reflexivity].
  destruct (st_rate_limit_limit s); [|discriminate].
  destruct (st_rate_limit_reset s); [|discriminate].
  reflexivity.
Qed.

(** A request whose inner application returns a response: what the
    middleware returns and the world it leaves. *)
Lemma dispatch_completed (request : Request) (call_next : Request -> M Response)
    (w w1 : World) (inner : Response) :
  call_next request (with_ticks S w) = (Return inner, w1) ->
  headers_ready (state w1) = true ->
  dispatch request call_next w =
    (Return (with_rate_limit_headers (state w1) inner),
     if recorded request
     then snd (log_api_usage (credential request) (url_path request)
                 (method request) (resp_status inner)
                 (Py.int ((next_reading w1 - next_reading w) * 1000))
                 (default "unknown" (client request))
                 (default None (st_user_id (state w1)))
                 (with_ticks S w1))
     else with_ticks S w1).
Proof.
  intros Hnext Hready. unfold dispatch.
  unfold bind at 1. unfold time_time at 1.
  unfold bind at 1. rewrite Hnext.
  unfold bind at 1. unfold time_time at 1.
  unfold bind at 1. unfold get at 1.
  unfold bind at 1.
  change (state (with_ticks S w1)) with (state w1).
  rewrite (add_rate_limit_headers_ready (state w1) inner _ Hready).
  fold (credential request). fold (recorded request).
  assert (Hst : resp_status (with_rate_limit_headers (state w1) inner)
                = resp_status inner).
  { unfold with_rate_limit_headers.
    destruct (st_rate_limit_remaining (state w1)),
      (st_rate_limit_limit (state w1)), (st_rate_limit_reset (state w1));
      reflexivity. }
  rewrite Hst. unfold next_reading.
  destruct (recorded request).
  - unfold bind, log_api_usage, modify, ret. reflexivity.
  - unfold bind, ret. reflexivity.
Qed.

Lemma log_api_usage_store (a : option string) (e m : string) (s t : Z)
    (ip : string) (u : option Z) (w : World) :
  _rate_limit_store (snd (log_api_usage a e m s t ip u w)) = _rate_limit_store w.
Proof.
  unfold log_api_usage, modify. cbn.
  destruct (reachable (database w)); reflexivity.
Qed.

Lemma enforced_denied (k t : string) (info : key_info) (w1 w' : World)
    (res : Result key_info) :
  enforced k t info w1 res w' ->
  exists win,
    _rate_limit_store w' !! k = Some win /\
    st_rate_limit_reset (state w') = Some (Py.int (reset_at win)) /\
    is_Some (st_rate_limit_remaining (state w')) /\
    headers_ready (state w') = true.
Proof.
  intros (Hs & Hrem & Hreset & [l Hl] & _).
  eexists. split; [rewrite Hs; apply lookup_insert_eq|].
  split; [exact Hreset|].
  split; [eauto|].
  unfold headers_ready. now rewrite Hrem, Hl, Hreset.
Qed.

(** A 429 from either guard comes from a quota check: the window it was
    counted in is stored under the quota key, and [request.state] holds its
    reset time. *)
Lemma guard_429 (g : Guard) (request : Request) (api_key : option string)
    (w wg : World) (e : HTTPException) :
  run_guard g request api_key w = (Raise (HTTP e), wg) ->
  status_code e = 429 ->
  exists k win,
    (k = anonymous_key request \/
     exists info c, api_key = Some c /\ k = rate_limit_key_of info c) /\
    _rate_limit_store wg !! k = Some win /\
    st_rate_limit_reset (state wg) = Some (Py.int (reset_at win)) /\
    is_Some (st_rate_limit_remaining (state wg)) /\
    headers_ready (state wg) = true.
Proof.
  intros Hrun H429. destruct g; cbn [run_guard] in Hrun.
  - (* required *)
    destruct (bool_decide (url_path request ∈ public_paths)) eqn:Hpub.
    { unfold require_api_key in Hrun. rewrite Hpub in Hrun. discriminate. }
    apply bool_decide_eq_false_1 in Hpub.
    destruct api_key as [k|]; cycle 1.
    { unfold require_api_key in Hrun.
      rewrite (not_public_path _ Hpub) in Hrun.
      unfold raise in Hrun. injection Hrun as <- <-. discriminate. }
    destruct (validate_api_key_total k w) as (o & w1 & Hv & _).
    destruct o as [info|]; cycle 1.
    { unfold require_api_key in Hrun.
      rewrite (not_public_path _ Hpub) in Hrun.
      destruct (Py.truthy_str k); cbn [negb] in Hrun.
      - unfold bind at 1 in Hrun. rewrite Hv in Hrun.
        unfold raise in Hrun. injection Hrun as <- <-. discriminate.
      - unfold raise in Hrun. injection Hrun as <- <-. discriminate. }
    destruct (is_dashboard_request request) eqn:Hdash.
    { destruct (require_api_key_dashboard request k w w1 info Hpub Hdash Hv)
        as (w' & Hret & _).
      rewrite Hret in Hrun. discriminate. }
    destruct (require_api_key_enforces request k w w1 info Hpub Hdash Hv)
      as (res & w' & Hrun' & Henf).
    rewrite Hrun in Hrun'. injection Hrun' as <- <-.
    destruct (enforced_denied _ _ _ _ _ _ Henf) as (win & ? & ? & ? & ?).
    exists (rate_limit_key_of info k), win. eauto 10.
  - (* optional *)
    assert (Hanon : forall w0,
               anonymous_rate_limit request w0 = (Raise (HTTP e), wg) ->
               exists k win,
                 (k = anonymous_key request \/
                  exists info c, api_key = Some c /\ k = rate_limit_key_of info c) /\
                 _rate_limit_store wg !! k = Some win /\
                 st_rate_limit_reset (state wg) = Some (Py.int (reset_at win)) /\
                 is_Some (st_rate_limit_remaining (state wg)) /\
                 headers_ready (state wg) = true).
    { intros w0 H0.
      destruct (anonymous_rate_limit_enforces request w0)
        as (res & w' & Hrun' & Henf).
      rewrite H0 in Hrun'. injection Hrun' as <- <-.
      destruct (enforced_denied _ _ _ _ _ _ Henf) as (win & ? & ? & ? & ?).
      exists (anonymous_key request), win. eauto 10. }
    destruct api_key as [k|]; [|exact (Hanon _ Hrun)].
    destruct (validate_api_key_total k w) as (o & w1 & Hv & _).
    destruct o as [info|].
    + destruct (optional_api_key_enforces request k w w1 info Hv)
        as (res & w' & Hrun' & Henf).
      rewrite Hrun in Hrun'. injection Hrun' as <- <-.
      destruct (enforced_denied _ _ _ _ _ _ Henf) as (win & ? & ? & ? & ?).
      exists (rate_limit_key_of info k), win. eauto 10.
    + rewrite (optional_api_key_unresolved request k w w1 Hv) in Hrun.
      exact (Hanon _ Hrun).
Qed.

(** ** C4: the reset time on a 429 *)

(** C4. For either guard and every request: when the guard rejects with a
    429, the response the middleware returns for the guarded route has status
    429 and carries, in [X-RateLimit-Reset], the reset time of the window
    stored under the quota key the request was counted against (the
    anonymous key, or the key derived from a resolved identity). *)
Theorem rate_limited_response_carries_reset (g : Guard) (request : Request)
    (endpoint : Request -> M Response) (w wg : World) (e : HTTPException) :
  run_guard g request (credential request) (with_ticks S w) = (Raise (HTTP e), wg) ->
  status_code e = 429 ->
  exists response w' k win,
    dispatch request (route (run_guard g) endpoint) w = (Return response, w') /\
    resp_status response = 429 /\
    (k = anonymous_key request \/
     exists info c, credential request = Some c /\ k = rate_limit_key_of info c) /\
    _rate_limit_store w' !! k = Some win /\
    resp_headers response !! "X-RateLimit-Reset"
      = Some (pretty (Py.int (reset_at win))).
Proof.
  intros Hrun H429.
  destruct (guard_429 g request _ _ _ _ Hrun H429)
    as (k & win & Hk & Hwin & Hreset & [rem Hrem] & Hready).
  assert (Hnext : route (run_guard g) endpoint request (with_ticks S w)
                  = (Return (http_exception_handler e), wg)).
  { unfold route, handle_http, get_api_key. fold (credential request).
    unfold bind. rewrite Hrun. reflexivity. }
  rewrite (dispatch_completed request _ w wg _ Hnext Hready).
  eexists _, _, k, win. split; [reflexivity|].
  unfold headers_ready in Hready. unfold with_rate_limit_headers.
  rewrite Hreset, Hrem in *.
  destruct (st_rate_limit_limit (state wg)); [|discriminate].
  cbn [resp_status resp_headers http_exception_handler].
  split; [exact H429|]. split; [exact Hk|]. split.
  - destruct (recorded request); [rewrite log_api_usage_store|]; exact Hwin.
  - apply lookup_insert_eq.
Qed.

Lemma rate_limited_response_carries_reset_witness :
  exists response w',
    dispatch (external_request "demo-key-free") (route optional_api_key ok_endpoint)
      (spent_world "demo-key-free" 100 no_database) = (Return response, w') /\
    resp_status response = 429 /\
    resp_headers response !! "X-RateLimit-Reset" = Some "3600".
Proof.
  destruct (rate_limited_response_carries_reset Optional
              (external_request "demo-key-free") ok_endpoint
              (spent_world "demo-key-free" 100 no_database)
              (with_state
                 (fun _ => mk_state (Some "demo-key-free") (Some "free") None None
                                    (Some (Int 0)) (Some 3600) (Some (Int 100)))
                 (with_ticks (fun _ => 2%nat)
                    (spent_world "demo-key-free" 100 no_database)))
              (mk_exc 429 "Rate limit exceeded" []))
    as (response & w' & k & win & Hrun & Hstatus & _ & _ & _).
  - reflexivity.
  - reflexivity.
  - cbn [run_guard] in Hrun.
    exists response, w'. split; [exact Hrun|]. split; [exact Hstatus|].
    assert (F : match fst (dispatch (external_request "demo-key-free")
                             (route optional_api_key ok_endpoint)
                             (spent_world "demo-key-free" 100 no_database))
                with
                | Return r => resp_headers r !! "X-RateLimit-Reset"
                | Raise _ => None
                end = Some "3600") by (vm_compute; reflexivity).
    rewrite Hrun in F. exact F.
Defined.

(** The exception the optional guard raises has no header of its own: on that
    path the reset time reaches the client through the middleware alone. *)
Lemma optional_api_key_429_bare :
  fst (optional_api_key (external_request "demo-key-free") (Some "demo-key-free")
         (spent_world "demo-key-free" 100 no_database))
    = Raise (HTTP (mk_exc 429 "Rate limit exceeded" [])) /\
  fst (optional_api_key (external_request "") None
         (spent_world "anon_10.0.0.1" 100 no_database))
    = Raise (HTTP (mk_exc 429
               "Rate limit exceeded. Get an API key for higher limits." [])).
Proof.
  split; vm_compute; reflexivity.
Qed.

(** ** C8: what the middleware records *)

(** C8 fails in both directions.  A request to the public path [/health]
    that carries a credential and no dashboard flag is let through by the
    public bypass of [require_api_key] and is recorded; a request without a
    credential to a path that is not public, with no dashboard flag, is served
    by [optional_api_key] and is not recorded. *)
Lemma public_recorded_anonymous_not :
  (bool_decide (url_path (get_request "/health" [("X-API-Key", "demo-key-free")])
                  ∈ public_paths) = true /\
   is_dashboard_request (get_request "/health" [("X-API-Key", "demo-key-free")])
     = false /\
   api_usage (database (snd (dispatch
       (get_request "/health" [("X-API-Key", "demo-key-free")])
       (route require_api_key ok_endpoint)
       (idle_world empty_tables))))
     = Some [mk_usage "demo-key-free" "/health" "GET" 200 0 "10.0.0.1" None]) /\
  (bool_decide (url_path (get_request "/api/v1/accidents" []) ∈ public_paths)
     = false /\
   is_dashboard_request (get_request "/api/v1/accidents" []) = false /\
   (resp_status <$> match fst (dispatch (get_request "/api/v1/accidents" [])
                                 (route optional_api_key ok_endpoint)
                                 (idle_world empty_tables))
                    with Return r => Some r | Raise _ => None end) = Some 200 /\
   api_usage (database (snd (dispatch
       (get_request "/api/v1/accidents" [])
       (route optional_api_key ok_endpoint)
       (idle_world empty_tables))))
     = Some []).
Proof.
  repeat split; vm_compute; reflexivity.
Qed.

(** C8, amended.  For every request whose inner application returns a
    response, whatever its status code and whatever the path: the middleware
    returns a response with that status code, and it calls [log_api_usage],
    with that status code, exactly when the request carries a non-empty
    credential (header [X-API-Key] or query parameter [api_key]) and is not
    dashboard-flagged; otherwise nothing is recorded. *)
Theorem usage_recorded_iff_credential_not_dashboard (request : Request)
    (call_next : Request -> M Response) (w w1 : World) (inner : Response) :
  call_next request (with_ticks S w) = (Return inner, w1) ->
  headers_ready (state w1) = true ->
  exists response w',
    dispatch request call_next w = (Return response, w') /\
    resp_status response = resp_status inner /\
    w' = (if Py.truthy (credential request) && negb (is_dashboard_request request)
          then snd (log_api_usage (credential request) (url_path request)
                      (method request) (resp_status inner)
                      (Py.int ((next_reading w1 - next_reading w) * 1000))
                      (default "unknown" (client request))
                      (default None (st_user_id (state w1)))
                      (with_ticks S w1))
          else with_ticks S w1) /\
    (Py.truthy (credential request) && negb (is_dashboard_request request) = false ->
     database w' = database w1).
Proof.
  intros Hnext Hready.
  rewrite (dispatch_completed request call_next w w1 inner Hnext Hready).
  eexists _, _. split; [reflexivity|].
  split.
  { unfold with_rate_limit_headers.
    destruct (st_rate_limit_remaining (state w1)),
      (st_rate_limit_limit (state w1)), (st_rate_limit_reset (state w1));
      reflexivity. }
  unfold recorded. split; [reflexivity|].
  intros ->. reflexivity.
Qed.

Lemma usage_recorded_iff_credential_not_dashboard_witness :
  exists response w',
    dispatch (external_request "demo-key-free") ok_endpoint
      (idle_world empty_tables) = (Return response, w') /\
    resp_status response = 200 /\
    api_usage (database w')
      = Some [mk_usage "demo-key-free" "/api/v1/accidents" "GET" 200 0
                       "10.0.0.1" None].
Proof.
  destruct (usage_recorded_iff_credential_not_dashboard
              (external_request "demo-key-free") ok_endpoint
              (idle_world empty_tables)
              (with_ticks S (idle_world empty_tables))
              (mk_response 200 ∅ "ok"))
    as (response & w' & Hrun & Hstatus & Hw' & _).
  - reflexivity.
  - reflexivity.
  - exists response, w'. split; [exact Hrun|]. split; [exact Hstatus|].
    rewrite Hw'. vm_compute. reflexivity.
Defined.

(** * Further properties of the quota counter *)

(** The unlimited tier is never denied: any number of calls in a row, at any
    clock readings and from any stored window, are all accepted and all
    report [inf] remaining. *)
Theorem unlimited_never_denied (n : nat) (k : string) (w : World) :
  exists rs w',
    repeat_check n k "unlimited" w = (Return rs, w') /\
    length rs = n /\
    Forall (fun r => fst (fst r) = true /\ snd (fst r) = Inf) rs.
Proof.
  revert w. induction n as [|n IH]; intros w.
  - exists [], w. repeat split. constructor.
  - cbn [repeat_check]. unfold bind at 1.
    rewrite check_rate_limit_unfold.
    destruct (IH (with_ticks S
                    (with_store
                       (insert k (window_after (next_reading w) "unlimited"
                                               (window_at k w))) w)))
      as (rs & w' & Hrun & Hlen & Hall).
    unfold bind at 1. rewrite Hrun. unfold ret.
    eexists _, _. split; [reflexivity|].
    split; [cbn; now rewrite Hlen|].
    constructor; [|exact Hall].
    unfold verdict. cbn. split; reflexivity.
Qed.

(** A call touches the window of its own key and the clock, nothing else:
    the windows of all other keys, the key cache, the database and
    [request.state] are as before. *)
Theorem check_rate_limit_touches_one_window (k tier : string) (w : World) :
  (forall k', k' <> k ->
     _rate_limit_store (snd (check_rate_limit k tier w)) !! k'
       = _rate_limit_store w !! k') /\
  _api_keys_cache (snd (check_rate_limit k tier w)) = _api_keys_cache w /\
  database (snd (check_rate_limit k tier w)) = database w /\
  state (snd (check_rate_limit k tier w)) = state w /\
  ticks (snd (check_rate_limit k tier w)) = S (ticks w).
Proof.
  rewrite check_rate_limit_unfold. cbn. repeat split.
  intros k' Hk'. apply lookup_insert_ne. congruence.
Qed.

(** On a tier with a finite ceiling [L], a stored count between 0 and [L]
    stays between 0 and [L] after a call, whatever the clock reads.  The
    remaining number the call reports is an integer from 0 to [L - 1]; on an
    accepted call it is [L] minus the count the call leaves, and on a denied
    call the count left is [L]. *)
Theorem count_stays_within_limit (k tier : string) (L : Z) (w : World) :
  limit_of tier = Int L ->
  0 <= count (window_at k w) <= L ->
  exists allowed remaining reset w',
    check_rate_limit k tier w = (Return (allowed, Int remaining, reset), w') /\
    0 <= count (window_at k w') <= L /\
    0 <= remaining < L /\
    (if allowed then remaining = L - count (window_at k w')
     else remaining = 0 /\ count (window_at k w') = L).
Proof.
  intros HL Hc. pose proof (finite_limit_positive _ _ HL) as Hpos.
  rewrite check_rate_limit_unfold.
  unfold verdict, window_after, current_window.
  set (win := window_at k w) in *.
  assert (Hat : forall x,
             window_at k (with_ticks S (with_store (insert k x) w)) = x).
  { intros x. unfold window_at. cbn. now rewrite lookup_insert_eq. }
  destruct (Py.gtb (next_reading w) (reset_at win)); cbn [count reset_at];
    rewrite HL; cbn [Py.geb Py.sub Py.max0].
  - destruct (Z.leb_spec L 0); [lia|].
    eexists _, _, _, _. split; [reflexivity|]. rewrite Hat. cbn [count].
    rewrite Z.max_r by lia. lia.
  - destruct (Z.leb_spec L (count win)).
    + eexists _, _, _, _. split; [reflexivity|]. rewrite Hat. lia.
    + eexists _, _, _, _. split; [reflexivity|]. rewrite Hat. cbn [count].
      rewrite Z.max_r by lia. lia.
Qed.

Lemma count_stays_within_limit_witness :
  exists allowed remaining reset w',
    check_rate_limit "demo-key-free" "free"
      (spent_world "demo-key-free" 99 no_database)
    = (Return (allowed, Int remaining, reset), w') /\
    0 <= count (window_at "demo-key-free" w') <= 100 /\
    0 <= remaining < 100.
Proof.
  destruct (count_stays_within_limit "demo-key-free" "free" 100
              (spent_world "demo-key-free" 99 no_database))
    as (allowed & remaining & reset & w' & Hrun & Hc & Hr & _).
  - reflexivity.
  - vm_compute. split; discriminate.
  - exists allowed, remaining, reset, w'. auto.
Defined.

(** A tier name that is not in the table of ceilings is limited exactly like
    the free tier: same answer, same world. *)
Theorem unknown_tier_is_free (k tier : string) (w : World) :
  RATE_LIMITS !! tier = None ->
  check_rate_limit k tier w = check_rate_limit k "free" w.
Proof.
  intros Hno. rewrite !check_rate_limit_unfold.
  unfold verdict, window_after, limit_of. rewrite Hno. reflexivity.
Qed.

Lemma unknown_tier_is_free_witness :
  check_rate_limit "k" "enterprise" (idle_world no_database)
  = check_rate_limit "k" "free" (idle_world no_database).
Proof.
  apply (unknown_tier_is_free "k" "enterprise" (idle_world no_database)).
  reflexivity.
Defined.

Lemma serial_admission_witness :
  fst (repeat_check (2 + 3) "demo-key-free" "free"
         (spent_world "demo-key-free" 98 no_database))
  = Return [(true, Int 1, 3600); (true, Int 0, 3600);
            (false, Int 0, 3600); (false, Int 0, 3600); (false, Int 0, 3600)].
Proof.
  apply (serial_admission "demo-key-free" "free" 100 eq_refl 2 3
           (spent_world "demo-key-free" 98 no_database) 98 3600%Q).
  - reflexivity.
  - reflexivity.
  - intros i _. cbn. discriminate.
Defined.

(** * Further properties of key resolution *)

Lemma ltb_true_iff (a b : Q) : Py.ltb a b = true <-> (a < b)%Q.
Proof. unfold Py.ltb. apply (gtb_true_iff b a). Qed.

Lemma demo_keys_active (k : string) (d : demo_entry) :
  DEMO_API_KEYS !! k = Some d -> demo_active d = true /\ Py.truthy_str k = true.
Proof.
  unfold DEMO_API_KEYS.
  repeat (rewrite lookup_insert; case_decide;
          [intros [= <-]; subst k; split; reflexivity|]).
  rewrite lookup_empty. discriminate.
Qed.

Lemma validate_api_key_demo (k : string) (d : demo_entry) (w : World) :
  DEMO_API_KEYS !! k = Some d ->
  validate_api_key k w =
    (Return (Some (mk_key_info k (demo_tier d) (demo_name d) (Some true) None)), w).
Proof.
  intros Hd. destruct (demo_keys_active k d Hd) as [Hact Ht].
  unfold validate_api_key. rewrite Ht, Hd, Hact. reflexivity.
Qed.

(** A key of the static registry resolves from the registry alone: whatever
    the cache and the database hold for that string, the identity is the
    registry's, and the world is left exactly as it was (no clock reading, no
    cache entry). *)
Theorem demo_key_resolves_statically (k : string) (d : demo_entry) (w : World) :
  DEMO_API_KEYS !! k = Some d ->
  validate_api_key k w =
    (Return (Some (mk_key_info k (demo_tier d) (demo_name d) (Some true) None)), w).
Proof.
  intros Hd. destruct (demo_keys_active k d Hd) as [Hact Ht].
  unfold validate_api_key. rewrite Ht, Hd, Hact. reflexivity.
Qed.

Lemma demo_key_resolves_statically_witness :
  validate_api_key "demo-key-pro"
    (mk_world ∅
       (<["apikey_demo-key-pro" :=
            (mk_key_info "demo-key-pro" "free" "Shadow" (Some true) (Some 3), 0%Q)]> ∅)
       (mk_db true (Some [mk_user "demo-key-pro" "unlimited" "Shadow" true 3])
              None None)
       (fun _ => 10%Q) 0 (fun _ => "") empty_state)
  = (Return (Some (mk_key_info "demo-key-pro" "professional" "Demo Professional"
                               (Some true) None)),
     mk_world ∅
       (<["apikey_demo-key-pro" :=
            (mk_key_info "demo-key-pro" "free" "Shadow" (Some true) (Some 3), 0%Q)]> ∅)
       (mk_db true (Some [mk_user "demo-key-pro" "unlimited" "Shadow" true 3])
              None None)
       (fun _ => 10%Q) 0 (fun _ => "") empty_state).
Proof.
  apply (demo_key_resolves_statically "demo-key-pro"
           (mk_demo "professional" "Demo Professional" true)).
  reflexivity.
Defined.

Lemma validate_api_key_hit (k : string) (w : World)
    (cached : key_info) (cached_at : Q) :
  Py.truthy_str k = true ->
  DEMO_API_KEYS !! k = None ->
  _api_keys_cache w !! ("apikey_" +:+ k) = Some (cached, cached_at) ->
  (next_reading w - cached_at < 300)%Q ->
  forall db : Database,
    validate_api_key k (with_database (fun _ => db) w)
      = (Return (Some cached), with_ticks S (with_database (fun _ => db) w)).
Proof.
  intros Ht Hd Hc Hage db.
  unfold validate_api_key. rewrite Ht, Hd. cbn [negb].
  unfold bind at 1. unfold get at 1.
  cbn [_api_keys_cache with_database]. rewrite Hc.
  unfold bind at 1. unfold bind at 1. unfold time_time at 1.
  change (clock (with_database (fun _ => db) w) (ticks (with_database (fun _ => db) w)))
    with (next_reading w).
  apply ltb_true_iff in Hage. unfold _cache_ttl. rewrite Hage.
  reflexivity.
Qed.

(** A cache entry younger than the TTL answers for the database: the cached
    identity is returned, only the clock is read, and the database is not
    consulted, so the answer is the same whatever the database now holds for
    that credential. *)
Theorem fresh_cache_hit_skips_database (k : string) (w : World)
    (cached : key_info) (cached_at : Q) :
  Py.truthy_str k = true ->
  DEMO_API_KEYS !! k = None ->
  _api_keys_cache w !! ("apikey_" +:+ k) = Some (cached, cached_at) ->
  (next_reading w - cached_at < 300)%Q ->
  forall db : Database,
    validate_api_key k (with_database (fun _ => db) w)
      = (Return (Some cached), with_ticks S (with_database (fun _ => db) w)).
Proof.
  intros Ht Hd Hc Hage db.
  unfold validate_api_key. rewrite Ht, Hd. cbn [negb].
  unfold bind at 1. unfold get at 1.
  cbn [_api_keys_cache with_database]. rewrite Hc.
  unfold bind at 1. unfold bind at 1. unfold time_time at 1.
  change (clock (with_database (fun _ => db) w) (ticks (with_database (fun _ => db) w)))
    with (next_reading w).
  apply ltb_true_iff in Hage. unfold _cache_ttl. rewrite Hage.
  reflexivity.
Qed.

Lemma fresh_cache_hit_skips_database_witness :
  fst (validate_api_key "rsk_a" revoked_world)
  = Return (Some (mk_key_info "rsk_a" "free" "Ann" (Some true) (Some 7))).
Proof.
  pose proof (fresh_cache_hit_skips_database "rsk_a" revoked_world
                (mk_key_info "rsk_a" "free" "Ann" (Some true) (Some 7)) 0%Q
                eq_refl eq_refl eq_refl eq_refl
                (mk_db true (Some []) (Some []) (Some []))) as H.
  change (with_database _ revoked_world) with revoked_world in H.
  rewrite H. reflexivity.
Defined.



Lemma fetched_matches (k : string) (db : Database) (info : key_info) :
  fetched k db = Some info -> key info = k /\ active info = Some true.
Proof.
  unfold fetched, select_users, select_api_keys.
  destruct (reachable db); cbn [negb]; [|discriminate].
  destruct (users db) as [us|]; [|discriminate].
  destruct (List.find _ us) as [row|] eqn:Hu.
  - intros [= <-]. apply List.find_some in Hu as [_ Hu].
    apply andb_true_iff in Hu as [Hk Ha]. apply String.eqb_eq in Hk.
    cbn. now rewrite Ha.
  - destruct (api_keys db) as [ks|]; [|discriminate].
    destruct (List.find _ ks) as [row|] eqn:Hk0; [|discriminate].
    intros [= <-]. apply List.find_some in Hk0 as [_ Hk0].
    apply andb_true_iff in Hk0 as [Hk Ha]. apply String.eqb_eq in Hk.
    cbn. now rewrite Ha.
Qed.

(** As long as every cache entry describes an active record and sits under
    the cache key of its own credential, an identity that key resolution
    returns is for the credential asked about and is active, and the cache
    keeps that shape. *)
Theorem resolved_identity_matches_credential (k : string) (w w' : World)
    (info : key_info) :
  cache_sound w ->
  validate_api_key k w = (Return (Some info), w') ->
  key info = k /\ active info = Some true /\ cache_sound w'.
Proof.
  intros Hs Hv.
  pose proof (validate_api_key_some_truthy _ _ _ _ Hv) as Ht.
  destruct (DEMO_API_KEYS !! k) as [d|] eqn:Hd.
  { rewrite (validate_api_key_demo k d w Hd) in Hv.
    injection Hv as <- <-. auto. }
  destruct (freshly_cached k w) eqn:Hc.
  - unfold freshly_cached in Hc.
    destruct (_api_keys_cache w !! ("apikey_" +:+ k)) as [[cached t]|] eqn:Hck;
      [|discriminate].
    apply ltb_true_iff in Hc.
    pose proof (validate_api_key_hit k w cached t Ht Hd Hck Hc
                  (database w)) as H.
    assert (Hw : with_database (fun _ => database w) w = w)
      by (destruct w; reflexivity).
    rewrite Hw, Hv in H. injection H as Hi Hw'. subst cached w'.
    destruct (Hs _ _ _ Hck) as [Hkey Hact].
    split; [|split; [exact Hact|]].
    + symmetry. exact (String.app_inj "apikey_" _ _ Hkey).
    + intros ck i t'. cbn. apply Hs.
  - rewrite validate_api_key_uncached in Hv by assumption.
    rewrite database_lookup_eq in Hv.
    set (w0 := match _api_keys_cache w !! ("apikey_" +:+ k) with
               | Some _ => with_ticks S w
               | None => w
               end) in *.
    assert (Hs0 : cache_sound w0).
    { subst w0. destruct (_api_keys_cache w !! ("apikey_" +:+ k)); [|exact Hs].
      intros ck i t'. cbn. apply Hs. }
    destruct (fetched k (database w0)) as [found|] eqn:Hf; [|discriminate].
    injection Hv as <- <-.
    destruct (fetched_matches _ _ _ Hf) as [Hkey Hact].
    split; [exact Hkey|]. split; [exact Hact|].
    rewrite <- Hkey.
    intros ck i t'. cbn. rewrite lookup_insert. case_decide as E.
    + intros [= <- <-]. now subst ck.
    + apply Hs0.
Qed.

Lemma resolved_identity_matches_credential_witness :
  key (mk_key_info "rsk_a" "free" "Ann" (Some true) (Some 7)) = "rsk_a" /\
  active (mk_key_info "rsk_a" "free" "Ann" (Some true) (Some 7)) = Some true /\
  cache_sound
    (with_cache
       (insert "apikey_rsk_a"
          (mk_key_info "rsk_a" "free" "Ann" (Some true) (Some 7), 10%Q))
       (with_ticks S (idle_world seven_database))).
Proof.
  apply (resolved_identity_matches_credential "rsk_a" (idle_world seven_database)).
  - intros ck info t H. cbn in H. rewrite lookup_empty in H. discriminate.
  - reflexivity.
Defined.

(** * Further properties of the guards *)

(** What either guard can answer: an identity, a 429, or, on the required
    guard only, a 401.  No other exception leaves a guard. *)
Theorem guard_outcomes (g : Guard) (request : Request) (api_key : option string)
    (w : World) :
  match fst (run_guard g request api_key w) with
  | Return _ => True
  | Raise (HTTP e) => status_code e = 429 \/ (g = Required /\ status_code e = 401)
  | Raise (Other _) => False
  end.
Proof.
  assert (Henf : forall k t info w1 res w',
             enforced k t info w1 res w' ->
             match res with
             | Return _ => True
             | Raise (HTTP e) =>
                 status_code e = 429 \/ (g = Required /\ status_code e = 401)
             | Raise (Other _) => False
             end).
  { intros k t info w1 res w' (_ & _ & _ & _ & _ & Hres).
    destruct (fst (fst (verdict _ _ _))).
    - now subst res.
    - destruct Hres as (e & -> & He). now left. }
  assert (Hanon : forall w0,
             match fst (anonymous_rate_limit request w0) with
             | Return _ => True
             | Raise (HTTP e) =>
                 status_code e = 429 \/ (g = Required /\ status_code e = 401)
             | Raise (Other _) => False
             end).
  { intros w0.
    destruct (anonymous_rate_limit_enforces request w0) as (res & w' & -> & H).
    exact (Henf _ _ _ _ _ _ H). }
  destruct g; cbn [run_guard].
  - destruct (bool_decide (url_path request ∈ public_paths)) eqn:Hpub.
    { unfold require_api_key. rewrite Hpub. exact I. }
    apply bool_decide_eq_false_1 in Hpub.
    destruct api_key as [k|]; cycle 1.
    { unfold require_api_key. rewrite (not_public_path _ Hpub). cbn. now right. }
    destruct (validate_api_key_total k w) as (o & w1 & Hv & _).
    destruct o as [info|]; cycle 1.
    { unfold require_api_key. rewrite (not_public_path _ Hpub).
      destruct (Py.truthy_str k); cbn [negb].
      - unfold bind at 1. rewrite Hv. cbn. now right.
      - cbn. now right. }
    destruct (is_dashboard_request request) eqn:Hdash.
    { destruct (require_api_key_dashboard request k w w1 info Hpub Hdash Hv)
        as (w' & -> & _). exact I. }
    destruct (require_api_key_enforces request k w w1 info Hpub Hdash Hv)
      as (res & w' & -> & H).
    exact (Henf _ _ _ _ _ _ H).
  - destruct api_key as [k|]; [|exact (Hanon w)].
    destruct (validate_api_key_total k w) as (o & w1 & Hv & _).
    destruct o as [info|].
    + destruct (optional_api_key_enforces request k w w1 info Hv)
        as (res & w' & -> & H).
      exact (Henf _ _ _ _ _ _ H).
    + rewrite (optional_api_key_unresolved request k w w1 Hv). exact (Hanon w1).
Qed.

(** A request the required guard rejects with a 401 has consumed nothing:
    the quota store, [request.state], the key cache and the database are as
    they were. *)
Theorem rejected_credential_consumes_nothing (request : Request)
    (api_key : option string) (w w' : World) (e : HTTPException) :
  require_api_key request api_key w = (Raise (HTTP e), w') ->
  status_code e = 401 ->
  _rate_limit_store w' = _rate_limit_store w /\
  state w' = state w /\
  _api_keys_cache w' = _api_keys_cache w /\
  database w' = database w.
Proof.
  intros Hrun H401.
  destruct (bool_decide (url_path request ∈ public_paths)) eqn:Hpub.
  { unfold require_api_key in Hrun. rewrite Hpub in Hrun. discriminate. }
  apply bool_decide_eq_false_1 in Hpub.
  destruct api_key as [k|]; cycle 1.
  { unfold require_api_key in Hrun. rewrite (not_public_path _ Hpub) in Hrun.
    unfold raise in Hrun. injection Hrun as _ <-. auto. }
  destruct (validate_api_key_total k w) as (o & w1 & Hv & _).
  destruct o as [info|]; cycle 1.
  { unfold require_api_key in Hrun. rewrite (not_public_path _ Hpub) in Hrun.
    destruct (Py.truthy_str k); cbn [negb] in Hrun.
    - unfold bind at 1 in Hrun. rewrite Hv in Hrun.
      unfold raise in Hrun. injection Hrun as _ <-.
      destruct (validate_api_key_none _ _ _ Hv) as [->| ->]; auto.
    - unfold raise in Hrun. injection Hrun as _ <-. auto. }
  destruct (is_dashboard_request request) eqn:Hdash.
  { destruct (require_api_key_dashboard request k w w1 info Hpub Hdash Hv)
      as (w2 & Hret & _).
    rewrite Hret in Hrun. discriminate. }
  destruct (require_api_key_enforces request k w w1 info Hpub Hdash Hv)
    as (res & w2 & Hrun' & (_ & _ & _ & _ & _ & Hres)).
  rewrite Hrun in Hrun'. injection Hrun' as <- <-.
  destruct (fst (fst (verdict _ _ _))); [discriminate|].
  destruct Hres as (e' & [= <-] & He'). lia.
Qed.

Lemma rejected_credential_consumes_nothing_witness :
  _rate_limit_store (spent_world "bogus" 3 empty_tables)
    = _rate_limit_store (spent_world "bogus" 3 empty_tables) /\
  state (spent_world "bogus" 3 empty_tables)
    = state (spent_world "bogus" 3 empty_tables) /\
  _api_keys_cache (spent_world "bogus" 3 empty_tables)
    = _api_keys_cache (spent_world "bogus" 3 empty_tables) /\
  database (spent_world "bogus" 3 empty_tables)
    = database (spent_world "bogus" 3 empty_tables).
Proof.
  apply (rejected_credential_consumes_nothing (external_request "bogus")
           (Some "bogus") (spent_world "bogus" 3 empty_tables)
           (spent_world "bogus" 3 empty_tables)
           (mk_exc 401 "Invalid API key" [("WWW-Authenticate", "API key invalid")])).
  - reflexivity.
  - reflexivity.
Defined.

(** Either guard writes at most one quota window per request and removes
    none: the store after the guard is the store before it, or that store
    with one window set. *)
Theorem guard_writes_at_most_one_window (g : Guard) (request : Request)
    (api_key : option string) (w : World) :
  _rate_limit_store (snd (run_guard g request api_key w)) = _rate_limit_store w \/
  exists k win,
    _rate_limit_store (snd (run_guard g request api_key w))
      = <[k := win]> (_rate_limit_store w).
Proof.
  assert (Hanon : forall w0,
             _rate_limit_store w0 = _rate_limit_store w ->
             exists k win,
               _rate_limit_store (snd (anonymous_rate_limit request w0))
                 = <[k := win]> (_rate_limit_store w)).
  { intros w0 H0.
    destruct (anonymous_rate_limit_enforces request w0)
      as (res & w' & -> & (Hs & _)).
    cbn [snd]. rewrite Hs, H0. eauto. }
  destruct g; cbn [run_guard].
  - destruct (bool_decide (url_path request ∈ public_paths)) eqn:Hpub.
    { unfold require_api_key. rewrite Hpub. now left. }
    apply bool_decide_eq_false_1 in Hpub.
    destruct api_key as [k|]; cycle 1.
    { unfold require_api_key. rewrite (not_public_path _ Hpub). now left. }
    destruct (validate_api_key_total k w) as (o & w1 & Hv & Hstore & _).
    destruct o as [info|]; cycle 1.
    { unfold require_api_key. rewrite (not_public_path _ Hpub).
      destruct (Py.truthy_str k); cbn [negb].
      - unfold bind at 1. rewrite Hv. now left.
      - now left. }
    destruct (is_dashboard_request request) eqn:Hdash.
    { destruct (require_api_key_dashboard request k w w1 info Hpub Hdash Hv)
        as (w' & -> & Hs). now left. }
    destruct (require_api_key_enforces request k w w1 info Hpub Hdash Hv)
      as (res & w' & -> & (Hs & _)).
    right. cbn [snd]. rewrite Hs, Hstore. eauto.
  - destruct api_key as [k|]; [|right; now apply Hanon].
    destruct (validate_api_key_total k w) as (o & w1 & Hv & Hstore & _).
    destruct o as [info|].
    + destruct (optional_api_key_enforces request k w w1 info Hv)
        as (res & w' & -> & (Hs & _)).
      right. cbn [snd]. rewrite Hs, Hstore. eauto.
    + rewrite (optional_api_key_unresolved request k w w1 Hv).
      right. now apply Hanon.
Qed.

Lemma require_api_key_dashboard_exempt_witness :
  _rate_limit_store
    (snd (require_api_key dashboard_request (Some "demo-key-free")
            (spent_world "demo-key-free" 100 no_database)))
  = _rate_limit_store (spent_world "demo-key-free" 100 no_database).
Proof.
  apply (require_api_key_dashboard_exempt dashboard_request (Some "demo-key-free")
           (spent_world "demo-key-free" 100 no_database)).
  reflexivity.
Defined.

(** Two identities with different user-ids, neither of them 0, are never
    counted in the same window, whatever their credential strings. *)
Theorem distinct_users_distinct_windows (info1 info2 : key_info) (k1 k2 : string)
    (u1 u2 : Z) :
  user_id info1 = Some u1 ->
  user_id info2 = Some u2 ->
  u1 <> 0 -> u2 <> 0 -> u1 <> u2 ->
  rate_limit_key_of info1 k1 <> rate_limit_key_of info2 k2.
Proof.
  intros H1 H2 Hz1 Hz2 Hne.
  rewrite (rate_limit_key_of_user info1 k1 u1 H1 Hz1).
  rewrite (rate_limit_key_of_user info2 k2 u2 H2 Hz2).
  intros E. apply (String.app_inj "user_") in E.
  apply (inj pretty) in E. contradiction.
Qed.

Lemma distinct_users_distinct_windows_witness :
  rate_limit_key_of (mk_key_info "rsk_a" "free" "Ann" (Some true) (Some 7)) "rsk_a"
  <> rate_limit_key_of (mk_key_info "rsk_b" "free" "Bob" (Some true) (Some 17)) "rsk_b".
Proof.
  apply (distinct_users_distinct_windows _ _ "rsk_a" "rsk_b" 7 17);
    try reflexivity; lia.
Defined.

(** Anonymous callers are bucketed by client address: a request without a
    credential from one address leaves the window of every other address as
    it was. *)
Theorem anonymous_callers_isolated (request other : Request) (a b : string)
    (w : World) :
  client request = Some a ->
  client other = Some b ->
  a <> b ->
  _rate_limit_store (snd (optional_api_key request None w)) !! anonymous_key other
  = _rate_limit_store w !! anonymous_key other.
Proof.
  intros Ha Hb Hne.
  change (optional_api_key request None w) with (anonymous_rate_limit request w).
  destruct (anonymous_rate_limit_enforces request w) as (res & w' & -> & (Hs & _)).
  cbn [snd]. rewrite Hs. apply lookup_insert_ne.
  unfold anonymous_key. rewrite Ha, Hb. cbn [default id].
  intros E. apply (String.app_inj "anon_") in E. contradiction.
Qed.

Lemma anonymous_callers_isolated_witness :
  _rate_limit_store
    (snd (optional_api_key (get_request "/api/v1/accidents" []) None
            (spent_world "anon_10.0.0.2" 5 no_database)))
    !! anonymous_key (mk_request "/" "GET" ∅ ∅ (Some "10.0.0.2"))
  = _rate_limit_store (spent_world "anon_10.0.0.2" 5 no_database)
      !! anonymous_key (mk_request "/" "GET" ∅ ∅ (Some "10.0.0.2")).
Proof.
  apply (anonymous_callers_isolated (get_request "/api/v1/accidents" [])
           (mk_request "/" "GET" ∅ ∅ (Some "10.0.0.2")) "10.0.0.1" "10.0.0.2").
  - reflexivity.
  - reflexivity.
  - discriminate.
Defined.

(** An identity on the unlimited tier is never rejected by a guard that
    enforces quota: the guard returns the identity, whatever the stored
    window and the clock. *)
Theorem unlimited_identity_never_rejected (g : Guard) (request : Request)
    (k : string) (w w1 : World) (info : key_info) :
  (g = Required ->
   (url_path request ∉ public_paths) /\ is_dashboard_request request = false) ->
  validate_api_key k w = (Return (Some info), w1) ->
  tier info = "unlimited" ->
  fst (run_guard g request (Some k) w) = Return info.
Proof.
  intros Hg Hv Ht.
  destruct (enforced_store g request k w w1 info Hg Hv)
    as (res & w' & -> & (_ & _ & _ & _ & _ & Hres) & _).
  rewrite Ht in Hres. unfold verdict in Hres. cbn in Hres. exact Hres.
Qed.

Lemma unlimited_identity_never_rejected_witness :
  fst (require_api_key (external_request "admin-key-unlimited")
         (Some "admin-key-unlimited")
         (spent_world "admin-key-unlimited" 1000000 no_database))
  = Return (mk_key_info "admin-key-unlimited" "unlimited" "Admin" (Some true) None).
Proof.
  apply (unlimited_identity_never_rejected Required
           (external_request "admin-key-unlimited") "admin-key-unlimited"
           (spent_world "admin-key-unlimited" 1000000 no_database)
           (spent_world "admin-key-unlimited" 1000000 no_database)).
  - intros _. split; [|reflexivity].
    unfold public_paths. intros H.
    repeat (apply elem_of_cons in H as [H|H]; [discriminate|]). inversion H.
  - reflexivity.
  - reflexivity.
Defined.

(** * Further properties of the middleware *)

Lemma not_rate_limit_header (h : string) :
  h ∉ rate_limit_header_names ->
  h <> "X-RateLimit-Reset" /\ h <> "X-RateLimit-Remaining" /\ h <> "X-RateLimit-Limit".
Proof.
  unfold rate_limit_header_names. intros H.
  repeat split; intros ->; apply H; repeat constructor.
Qed.

(** The middleware passes the inner response on with its status code, its
    body and every header other than the three rate-limit headers as they
    were, and leaves the quota store, the key cache and [request.state]
    alone. *)
Theorem middleware_adds_only_rate_limit_headers (request : Request)
    (call_next : Request -> M Response) (w w1 : World) (inner : Response) :
  call_next request (with_ticks S w) = (Return inner, w1) ->
  headers_ready (state w1) = true ->
  exists response w',
    dispatch request call_next w = (Return response, w') /\
    resp_status response = resp_status inner /\
    resp_body response = resp_body inner /\
    (forall h, h ∉ rate_limit_header_names ->
               resp_headers response !! h = resp_headers inner !! h) /\
    _rate_limit_store w' = _rate_limit_store w1 /\
    _api_keys_cache w' = _api_keys_cache w1 /\
    state w' = state w1.
Proof.
  intros Hnext Hready.
  rewrite (dispatch_completed request call_next w w1 inner Hnext Hready).
  eexists _, _. split; [reflexivity|].
  assert (Hw : forall a e m s t ip u,
             _rate_limit_store (snd (log_api_usage a e m s t ip u (with_ticks S w1)))
               = _rate_limit_store w1 /\
             _api_keys_cache (snd (log_api_usage a e m s t ip u (with_ticks S w1)))
               = _api_keys_cache w1 /\
             state (snd (log_api_usage a e m s t ip u (with_ticks S w1))) = state w1).
  { intros. unfold log_api_usage, modify. cbn.
    destruct (reachable (database w1)); auto. }
  unfold with_rate_limit_headers.
  destruct (st_rate_limit_remaining (state w1)),
    (st_rate_limit_limit (state w1)), (st_rate_limit_reset (state w1));
    cbn [resp_status resp_body resp_headers];
    (split; [reflexivity|]); (split; [reflexivity|]);
    (split; [|destruct (recorded request); [apply Hw|auto]]);
    try reflexivity.
  intros h Hh. destruct (not_rate_limit_header h Hh) as (H1 & H2 & H3).
  rewrite !lookup_insert_ne by congruence. reflexivity.
Qed.

Lemma middleware_adds_only_rate_limit_headers_witness :
  exists response w',
    dispatch (external_request "demo-key-free") (route require_api_key ok_endpoint)
      (idle_world empty_tables) = (Return response, w') /\
    resp_status response = 200 /\
    resp_body response = "ok".
Proof.
  destruct (middleware_adds_only_rate_limit_headers
              (external_request "demo-key-free") (route require_api_key ok_endpoint)
              (idle_world empty_tables)
              (snd (route require_api_key ok_endpoint
                      (external_request "demo-key-free")
                      (with_ticks S (idle_world empty_tables))))
              (mk_response 200 ∅ "ok"))
    as (response & w' & Hrun & Hs & Hb & _).
  - vm_compute. reflexivity.
  - vm_compute. reflexivity.
  - exists response, w'. auto.
Defined.

(** A logging failure is invisible: with the database unreachable or the
    usage table missing, the middleware returns the response it returns for a
    request it does not record, and leaves the world that request leaves. *)
Theorem logging_failure_is_invisible (request : Request)
    (call_next : Request -> M Response) (w w1 : World) (inner : Response) :
  call_next request (with_ticks S w) = (Return inner, w1) ->
  headers_ready (state w1) = true ->
  reachable (database w1) = false \/ api_usage (database w1) = None ->
  dispatch request call_next w =
    (Return (with_rate_limit_headers (state w1) inner), with_ticks S w1).
Proof.
  intros Hnext Hready Hfail.
  rewrite (dispatch_completed request call_next w w1 inner Hnext Hready).
  destruct (recorded request); [|reflexivity].
  f_equal. unfold log_api_usage, modify. cbn [snd database with_ticks].
  destruct Hfail as [Hr|Ht].
  - now rewrite Hr.
  - destruct (reachable (database w1)); [|reflexivity].
    apply world_eq; try reflexivity.
    cbn. unfold insert_usage. rewrite Ht. reflexivity.
Qed.

Lemma logging_failure_is_invisible_witness :
  fst (dispatch (external_request "demo-key-free") ok_endpoint
         (idle_world no_database))
  = Return (mk_response 200 ∅ "ok").
Proof.
  rewrite (logging_failure_is_invisible (external_request "demo-key-free")
             ok_endpoint (idle_world no_database)
             (with_ticks S (idle_world no_database)) (mk_response 200 ∅ "ok")
             eq_refl eq_refl (or_intror eq_refl)).
  reflexivity.
Defined.

(** * Properties of the rate-limit status endpoint *)

Lemma require_api_key_enforces_state (request : Request) (k : string)
    (w w1 : World) (info : key_info) :
  url_path request ∉ public_paths ->
  is_dashboard_request request = false ->
  validate_api_key k w = (Return (Some info), w1) ->
  exists res w',
    require_api_key request (Some k) w = (res, w') /\
    enforced (rate_limit_key_of info k) (tier info) info w1 res w' /\
    st_tier (state w') = Some (tier info) /\
    st_rate_limit_limit (state w') = Some (limit_of (tier info)).
Proof.
  intros Hpath Hdash Hv.
  pose proof (validate_api_key_some_truthy _ _ _ _ Hv) as Ht.
  unfold require_api_key, enforced.
  rewrite (not_public_path _ Hpath), Ht. cbn [negb].
  unfold bind at 1. rewrite Hv. rewrite Hdash.
  unfold bind at 1. unfold modify at 1.
  unfold bind at 1.
  rewrite check_rate_limit_unfold.
  unfold next_reading, window_at.
  cbn [clock ticks _rate_limit_store with_state with_ticks with_store].
  set (now := clock w1 (ticks w1)).
  set (win0 := default default_window (_rate_limit_store w1 !! rate_limit_key_of info k)).
  pose proof (verdict_reset now (tier info) win0) as Hreset.
  destruct (verdict now (tier info) win0) as [[allowed remaining] reset].
  cbn [fst snd] in *. subst reset.
  unfold bind at 1. unfold set_rate_limit_state, modify.
  destruct allowed; cbn [negb].
  - unfold ret. eexists _, _. split; [reflexivity|].
    cbn. repeat split; eauto.
  - unfold bind at 1. unfold get at 1. unfold bind at 1. unfold time_time at 1.
    unfold raise. eexists _, _. split; [reflexivity|].
    cbn. repeat split; eauto.
Qed.

Lemma require_api_key_dashboard_state (request : Request) (k : string)
    (w w1 : World) (info : key_info) :
  url_path request ∉ public_paths ->
  is_dashboard_request request = true ->
  validate_api_key k w = (Return (Some info), w1) ->
  exists w',
    require_api_key request (Some k) w = (Return info, w') /\
    _rate_limit_store w' = _rate_limit_store w1 /\
    st_tier (state w') = Some (tier info) /\
    st_rate_limit_remaining (state w')
      = Some (Int (displayed_limit (limit_of (tier info)))) /\
    is_Some (st_rate_limit_reset (state w')).
Proof.
  intros Hpath Hdash Hv.
  pose proof (validate_api_key_some_truthy _ _ _ _ Hv) as Ht.
  unfold require_api_key.
  rewrite (not_public_path _ Hpath), Ht. cbn [negb].
  unfold bind at 1. rewrite Hv. rewrite Hdash.
  unfold bind at 1. unfold modify at 1.
  unfold bind at 1. unfold time_time at 1.
  unfold bind at 1. unfold set_rate_limit_state, modify, ret.
  eexists. split; [reflexivity|]. cbn.
  repeat split; eauto.
  change (limit_or_100 (tier info)) with (limit_of (tier info)).
  destruct (limit_of (tier info)); reflexivity.
Qed.

(** After the required guard has accepted a request on a tier with a finite
    ceiling [L], the status endpoint answers, and what it reports is what the
    store holds: the ceiling [L], as remaining [L] minus the stored count of
    the quota key, the reset time of that window, and a number of seconds
    that is not negative. *)
Theorem status_after_accepted_request (request : Request) (k : string)
    (w w1 w2 : World) (info : key_info) (L : Z) :
  url_path request ∉ public_paths ->
  is_dashboard_request request = false ->
  validate_api_key k w = (Return (Some info), w1) ->
  limit_of (tier info) = Int L ->
  require_api_key request (Some k) w = (Return info, w2) ->
  exists st w3,
    get_rate_limit_status w2 = (Return st, w3) /\
    rl_tier st = tier info /\
    rl_limit st = L /\
    rl_remaining st = L - count (window_at (rate_limit_key_of info k) w2) /\
    0 <= rl_remaining st /\
    rl_reset_at st = Py.int (reset_at (window_at (rate_limit_key_of info k) w2)) /\
    0 <= rl_reset_in_seconds st.
Proof.
  intros Hpath Hdash Hv HL Hrun.
  destruct (require_api_key_enforces_state request k w w1 info Hpath Hdash Hv)
    as (res & w' & Hrun' & (Hs & Hrem & Hreset & _ & _ & Hres) & Htier & Hlim).
  rewrite Hrun in Hrun'. injection Hrun' as <- <-.
  set (key := rate_limit_key_of info k) in *.
  assert (Hwin : window_at key w2
                 = window_after (next_reading w1) (tier info) (window_at key w1)).
  { unfold window_at at 1. rewrite Hs, lookup_insert_eq. reflexivity. }
  rewrite <- Hwin in Hreset.
  unfold verdict in Hrem, Hres. unfold window_after in Hwin.
  rewrite HL in *. cbn [Py.geb Py.sub Py.max0] in *.
  set (cur := current_window (next_reading w1) (window_at key w1)) in *.
  destruct (Z.leb_spec L (count cur)) as [Hfull|Hroom]; cbn [fst snd] in *.
  { destruct Hres as (e & [=] & _). }
  unfold get_rate_limit_status.
  unfold bind at 1. unfold get at 1.
  rewrite Htier, Hrem, Hreset. cbn [default id].
  unfold bind at 1. unfold ret at 1.
  unfold bind at 1. unfold time_time at 1.
  change (limit_or_100 (tier info)) with (limit_of (tier info)). rewrite HL.
  unfold ret. eexists _, _. split; [reflexivity|].
  cbn [rl_tier rl_limit rl_remaining rl_reset_at rl_reset_in_seconds displayed_limit].
  rewrite Hwin. cbn [count].
  repeat split; lia.
Qed.

Lemma status_after_accepted_request_witness :
  exists st w3,
    get_rate_limit_status
      (snd (require_api_key (external_request "demo-key-free")
              (Some "demo-key-free") (spent_world "demo-key-free" 40 no_database)))
      = (Return st, w3) /\
    rl_limit st = 100 /\
    rl_remaining st = 59.
Proof.
  destruct (status_after_accepted_request (external_request "demo-key-free")
              "demo-key-free" (spent_world "demo-key-free" 40 no_database)
              (spent_world "demo-key-free" 40 no_database)
              (snd (require_api_key (external_request "demo-key-free")
                      (Some "demo-key-free")
                      (spent_world "demo-key-free" 40 no_database)))
              (mk_key_info "demo-key-free" "free" "Demo Free" (Some true) None) 100)
    as (st & w3 & Hrun & _ & Hl & Hr & _).
  - unfold public_paths. intros H.
    repeat (apply elem_of_cons in H as [H|H]; [discriminate|]). inversion H.
  - reflexivity.
  - reflexivity.
  - reflexivity.
  - vm_compute. reflexivity.
  - exists st, w3. split; [exact Hrun|]. split; [exact Hl|].
    rewrite Hr. vm_compute. reflexivity.
Defined.

(** On the unlimited tier the status endpoint fails after a request the
    required guard has counted: the guard leaves [inf] as the remaining
    number, and the response model does not accept it for its [int] field. *)
Theorem status_fails_for_unlimited (request : Request) (k : string)
    (w w1 : World) (info : key_info) :
  url_path request ∉ public_paths ->
  is_dashboard_request request = false ->
  validate_api_key k w = (Return (Some info), w1) ->
  tier info = "unlimited" ->
  exists w2,
    require_api_key request (Some k) w = (Return info, w2) /\
    fst (get_rate_limit_status w2) = Raise (Other "ValidationError").
Proof.
  intros Hpath Hdash Hv Ht.
  destruct (require_api_key_enforces_state request k w w1 info Hpath Hdash Hv)
    as (res & w2 & Hrun & (_ & Hrem & Hreset & _ & _ & Hres) & Htier & _).
  rewrite Ht in Hrem, Hres. unfold verdict in Hrem, Hres.
  assert (Hinf : limit_of "unlimited" = Inf) by reflexivity.
  rewrite Hinf in Hrem, Hres. cbn in Hrem, Hres. subst res.
  exists w2. split; [exact Hrun|].
  unfold get_rate_limit_status.
  unfold bind at 1. unfold get at 1.
  rewrite Htier, Hrem, Hreset. cbn [default id].
  unfold bind at 1. unfold ret at 1.
  unfold bind at 1. unfold time_time at 1.
  reflexivity.
Qed.

Lemma status_fails_for_unlimited_witness :
  exists w2,
    require_api_key (external_request "admin-key-unlimited")
      (Some "admin-key-unlimited") (idle_world no_database)
    = (Return (mk_key_info "admin-key-unlimited" "unlimited" "Admin" (Some true) None),
       w2) /\
    fst (get_rate_limit_status w2) = Raise (Other "ValidationError").
Proof.
  apply (status_fails_for_unlimited (external_request "admin-key-unlimited")
           "admin-key-unlimited" (idle_world no_database) (idle_world no_database)).
  - unfold public_paths. intros H.
    repeat (apply elem_of_cons in H as [H|H]; [discriminate|]). inversion H.
  - reflexivity.
  - reflexivity.
  - reflexivity.
Defined.

(** For a dashboard request the status endpoint shows the full ceiling as
    remaining (999999 on the unlimited tier), however used the stored window
    is, and the guard has left the quota store as it was. *)
Theorem dashboard_status_shows_full_quota (request : Request) (k : string)
    (w w1 : World) (info : key_info) :
  url_path request ∉ public_paths ->
  is_dashboard_request request = true ->
  validate_api_key k w = (Return (Some info), w1) ->
  exists w2 st w3,
    require_api_key request (Some k) w = (Return info, w2) /\
    _rate_limit_store w2 = _rate_limit_store w /\
    get_rate_limit_status w2 = (Return st, w3) /\
    rl_limit st = displayed_limit (limit_of (tier info)) /\
    rl_remaining st = rl_limit st.
Proof.
  intros Hpath Hdash Hv.
  destruct (validate_api_key_total k w) as (o & w1' & Hv' & Hstore & _).
  rewrite Hv in Hv'. injection Hv' as <- <-.
  destruct (require_api_key_dashboard_state request k w w1 info Hpath Hdash Hv)
    as (w2 & Hrun & Hs & Htier & Hrem & [reset Hreset]).
  exists w2.
  unfold get_rate_limit_status.
  unfold bind at 1. unfold get at 1.
  rewrite Htier, Hrem, Hreset. cbn [default id].
  unfold bind at 1. unfold ret at 1.
  unfold bind at 1. unfold time_time at 1.
  unfold ret. eexists _, _. split; [exact Hrun|].
  split; [now rewrite Hs|]. split; [reflexivity|].
  cbn. split; reflexivity.
Qed.

Lemma dashboard_status_shows_full_quota_witness :
  exists w2 st w3,
    require_api_key dashboard_request (Some "demo-key-free")
      (spent_world "demo-key-free" 100 no_database)
    = (Return (mk_key_info "demo-key-free" "free" "Demo Free" (Some true) None), w2) /\
    get_rate_limit_status w2 = (Return st, w3) /\
    rl_remaining st = 100.
Proof.
  destruct (dashboard_status_shows_full_quota dashboard_request "demo-key-free"
              (spent_world "demo-key-free" 100 no_database)
              (spent_world "demo-key-free" 100 no_database)
              (mk_key_info "demo-key-free" "free" "Demo Free" (Some true) None))
    as (w2 & st & w3 & Hrun & _ & Hst & Hl & Hr).
  - unfold public_paths. intros H.
    repeat (apply elem_of_cons in H as [H|H]; [discriminate|]). inversion H.
  - reflexivity.
  - reflexivity.
  - exists w2, st, w3. split; [exact Hrun|]. split; [exact Hst|].
    rewrite Hr, Hl. reflexivity.
Defined.

(** * The window boundary *)

Lemma repeat_check_app (a b : nat) (k tier : string) : forall w : World,
  repeat_check (a + b) k tier w =
    match repeat_check a k tier w with
    | (Return rs1, w1) =>
        match repeat_check b k tier w1 with
        | (Return rs2, w2) => (Return (rs1 ++ rs2)%list, w2)
        | (Raise e, w2) => (Raise e, w2)
        end
    | (Raise e, w1) => (Raise e, w1)
    end.
Proof.
  induction a as [|a IH]; intros w.
  - cbn. unfold ret. destruct (repeat_check b k tier w) as [[rs|e] w2]; reflexivity.
  - cbn [Nat.add repeat_check]. unfold bind.
    rewrite check_rate_limit_unfold. rewrite IH.
    destruct (repeat_check a k tier _) as [[rs1|e] w1]; [|reflexivity].
    unfold ret.
    destruct (repeat_check b k tier w1) as [[rs2|e] w2]; reflexivity.
Qed.

Lemma accepted_run_all_allowed (L : Z) (n : nat) : forall (c : Z) (r : Q),
  Forall (fun x : bool * Number * Z => fst (fst x) = true) (accepted_run L n c r).
Proof.
  induction n as [|n IH]; intros c r; cbn; constructor; [reflexivity|apply IH].
Qed.

(** A call that opens a new window, followed by calls inside it, up to the
    ceiling: all accepted, and the window is left used up. *)
Lemma fresh_window_run (k tier : string) (L : Z) (w : World) :
  limit_of tier = Int L ->
  (reset_at (window_at k w) < next_reading w)%Q ->
  (forall i, (1 <= i < Z.to_nat L)%nat ->
     (clock w (ticks w + i) <= next_reading w + RATE_LIMIT_WINDOW)%Q) ->
  repeat_check (Z.to_nat L) k tier w =
    (Return (accepted_run L (Z.to_nat L) 0 (next_reading w + RATE_LIMIT_WINDOW)),
     with_ticks (fun t => (t + Z.to_nat L)%nat)
       (with_store
          (insert k (mk_window L (next_reading w + RATE_LIMIT_WINDOW))) w)).
Proof.
  intros HL Hexp Hin.
  pose proof (finite_limit_positive _ _ HL) as Hpos.
  set (r := (next_reading w + RATE_LIMIT_WINDOW)%Q) in *.
  destruct (Z.to_nat L) as [|m] eqn:Hm; [lia|].
  cbn [repeat_check]. unfold bind at 1.
  rewrite (check_reopens k tier L HL w Hexp). fold r.
  unfold bind at 1.
  rewrite (repeat_check_accepts k tier L HL m _ 1 r); cycle 1.
  { apply lookup_insert_eq. }
  { lia. }
  { intros i Hi. cbn. specialize (Hin (S i) ltac:(lia)).
    now rewrite Nat.add_succ_r in Hin. }
  unfold ret. cbn [accepted_run]. rewrite Z.sub_0_r. f_equal.
  apply world_eq; cbn; try reflexivity.
  - rewrite insert_insert_eq. do 2 f_equal. lia.
  - lia.
Qed.

(** The fixed window lets twice the ceiling through around a boundary: with
    an unused window that ends at [r], [L] calls made up to [r] and [L] more
    made after [r] are all accepted, however close to [r] they all are. *)
Theorem boundary_burst (k tier : string) (L : Z) (w : World) (r : Q) :
  limit_of tier = Int L ->
  _rate_limit_store w !! k = Some (mk_window 0 r) ->
  (forall i, (i < Z.to_nat L)%nat -> (clock w (ticks w + i) <= r)%Q) ->
  (r < clock w (ticks w + Z.to_nat L))%Q ->
  (forall i, (Z.to_nat L < i < Z.to_nat L + Z.to_nat L)%nat ->
     (clock w (ticks w + i) <= clock w (ticks w + Z.to_nat L) + RATE_LIMIT_WINDOW)%Q) ->
  exists rs w',
    repeat_check (Z.to_nat L + Z.to_nat L) k tier w = (Return rs, w') /\
    length rs = (Z.to_nat L + Z.to_nat L)%nat /\
    Forall (fun x => fst (fst x) = true) rs.
Proof.
  intros HL Hk Hold Hafter Hnew.
  pose proof (finite_limit_positive _ _ HL) as Hpos.
  set (n := Z.to_nat L) in *.
  rewrite repeat_check_app.
  rewrite (repeat_check_accepts k tier L HL n w 0 r Hk); [|lia|exact Hold].
  set (w1 := with_ticks (fun t => (t + n)%nat)
               (with_store (insert k (mk_window (0 + Z.of_nat n) r)) w)).
  assert (Hnext : next_reading w1 = clock w (ticks w + n)) by reflexivity.
  assert (Hrun : repeat_check n k tier w1 =
            (Return (accepted_run L n 0 (next_reading w1 + RATE_LIMIT_WINDOW)),
             with_ticks (fun t => (t + n)%nat)
               (with_store
                  (insert k (mk_window L (next_reading w1 + RATE_LIMIT_WINDOW)))
                  w1))).
  { apply (fresh_window_run k tier L w1 HL).
    - rewrite Hnext. unfold window_at, w1. cbn. now rewrite lookup_insert_eq.
    - intros i Hi. rewrite Hnext. unfold w1. cbn.
      replace (ticks w + n + i)%nat with (ticks w + (n + i))%nat by lia.
      apply Hnew. fold n in Hi. lia. }
  rewrite Hrun.
  eexists _, _. split; [reflexivity|]. split.
  - rewrite length_app, !accepted_run_length. reflexivity.
  - apply Forall_app. split; apply accepted_run_all_allowed.
Qed.

Lemma boundary_burst_witness :
  exists rs w',
    repeat_check 200 "demo-key-free" "free" boundary_world = (Return rs, w') /\
    length rs = 200%nat /\
    Forall (fun x => fst (fst x) = true) rs.
Proof.
  apply (boundary_burst "demo-key-free" "free" 100 boundary_world 3600%Q).
  - reflexivity.
  - reflexivity.
  - intros i Hi. unfold boundary_world. cbn [clock ticks Nat.add].
    destruct (Nat.ltb_spec i 100); [|change (Z.to_nat 100) with 100%nat in Hi; lia].
    cbn. discriminate.
  - reflexivity.
  - intros i Hi. change (Z.to_nat 100) with 100%nat in Hi.
    unfold boundary_world. cbn [clock ticks Nat.add].
    destruct (Nat.ltb_spec i 100); [lia|].
    cbn. discriminate.
Defined.

(** Key resolution never evicts: every cache entry present before a call is
    still present after it, stale or not, and whatever the call returns. *)
Theorem cache_never_evicts (k : string) (w : World) (ck : string) :
  is_Some (_api_keys_cache w !! ck) ->
  is_Some (_api_keys_cache (snd (validate_api_key k w)) !! ck).
Proof.
  intros Hin.
  destruct (Py.truthy_str k) eqn:Ht; cycle 1.
  { unfold validate_api_key. rewrite Ht. exact Hin. }
  destruct (DEMO_API_KEYS !! k) as [d|] eqn:Hd.
  { rewrite (validate_api_key_demo k d w Hd). exact Hin. }
  destruct (freshly_cached k w) eqn:Hc.
  - unfold freshly_cached in Hc.
    destruct (_api_keys_cache w !! ("apikey_" +:+ k)) as [[cached t]|] eqn:Hck;
      [|discriminate].
    apply ltb_true_iff in Hc.
    pose proof (validate_api_key_hit k w cached t Ht Hd Hck Hc
                  (database w)) as H.
    assert (Hw : with_database (fun _ => database w) w = w)
      by (destruct w; reflexivity).
    rewrite Hw in H. rewrite H. exact Hin.
  - rewrite validate_api_key_uncached by assumption.
    rewrite database_lookup_eq.
    set (w0 := match _api_keys_cache w !! ("apikey_" +:+ k) with
               | Some _ => with_ticks S w
               | None => w
               end).
    assert (H0 : _api_keys_cache w0 = _api_keys_cache w).
    { subst w0. destruct (_api_keys_cache w !! ("apikey_" +:+ k)); reflexivity. }
    destruct (fetched k (database w0)) as [info|]; cbn [snd].
    + cbn. rewrite H0, lookup_insert. case_decide; [eauto|exact Hin].
    + now rewrite H0.
Qed.

Lemma cache_never_evicts_witness :
  is_Some (_api_keys_cache (snd (validate_api_key "rsk_b" stale_world))
             !! "apikey_rsk_a").
Proof.
  apply (cache_never_evicts "rsk_b" stale_world "apikey_rsk_a").
  eexists. reflexivity.
Defined.
